(** * go-parser: the Ethereum JSON-RPC parser and its subscriber registry

    A shallow embedding of [main.go] and of the two other snapshots of the
    same program, with the properties of the parser/subscription engine
    proved over it.

    Layout:
    - [strconv]: Go's [strconv.ParseUint], the one library routine whose
      arithmetic the program depends on;
    - the shared part of the three snapshots: the wire types, the
      [Exec] monad (registry, standard output, HTTP trace, panics),
      [ParseHexUint64] and [callRPCMethod];
    - [Main]: [main.go] (storage behind [MemoryStorage], results without
      an error component);
    - [MemDB]: the first snapshot (same storage, results with an error);
    - [GlobalMap]: the second snapshot (a bare map, [UnsubscribeAddress]);
    - the theorems. *)

From Stdlib Require Import ZArith Lia List Ascii String Bool.
From stdpp Require Import gmap strings.

Import ListNotations.
Local Open Scope Z_scope.

(** ** Machine integers *)

Definition uint64_modulus : Z := 2 ^ 64.
Definition maxUint64 : Z := 2 ^ 64 - 1.

(** A [uint64] is a [Z] reduced modulo [2^64] after every operation. *)
Definition wrap64 (z : Z) : Z := z mod uint64_modulus.

(** A Go [byte] is a [Z] in [0, 256); a Go [string] is its sequence of bytes. *)
Definition byte_of (c : ascii) : Z := Z.of_N (N_of_ascii c).

(** ** strconv *)

Module strconv.

(** [strconv.ErrSyntax], [strconv.ErrRange] and the two errors built by
    [baseError] and [bitSizeError]. *)
Inductive Err :=
| ErrSyntax
| ErrRange
| ErrBase (base : Z)
| ErrBitSize (bitSize : Z).

(** [*strconv.NumError]. *)
Record NumError := mkNumError { Func : string; Num : string; Cause : Err }.

Definition fnParseUint : string := "ParseUint".

Definition syntaxError (fn str : string) : NumError := mkNumError fn str ErrSyntax.
Definition rangeError (fn str : string) : NumError := mkNumError fn str ErrRange.
Definition baseError (fn str : string) (base : Z) : NumError :=
  mkNumError fn str (ErrBase base).
Definition bitSizeError (fn str : string) (bitSize : Z) : NumError :=
  mkNumError fn str (ErrBitSize bitSize).

(** [lower(c) = c | ('x' - 'X')]. *)
Definition lower (c : Z) : Z := Z.lor c (120 - 88).

(** The [switch] of the digit loop: the value of byte [c] as a digit, if
    it is one of [0-9], [a-z], [A-Z]. The underscore case needs [base == 0]
    and is not reachable with an explicit base. *)
Definition digit_of (c : Z) : option Z :=
  if (48 <=? c) && (c <=? 57) then Some (c - 48)
  else if (97 <=? lower c) && (lower c <=? 122) then Some (lower c - 97 + 10)
  else None.

(** The loop [for _, c := range []byte(s)] of [ParseUint], with the
    accumulator [n] as an argument. *)
Fixpoint digits_loop (s0 : string) (base cutoff maxVal : Z) (s : string) (n : Z)
  : Z * option NumError :=
  match s with
  | EmptyString => (n, None)
  | String ch rest =>
      match digit_of (byte_of ch) with
      | None => (0, Some (syntaxError fnParseUint s0))
      | Some d =>
          if d >=? base then (0, Some (syntaxError fnParseUint s0))
          else if n >=? cutoff then (maxVal, Some (rangeError fnParseUint s0))
          else
            let n' := wrap64 (n * base) in
            let n1 := wrap64 (n' + d) in
            if (n1 <? n') || (n1 >? maxVal)
            then (maxVal, Some (rangeError fnParseUint s0))
            else digits_loop s0 base cutoff maxVal rest n1
      end
  end.

(** [strconv.ParseUint(s, base, bitSize)] for an explicit base. The
    program calls it with base 16 only; the prefix detection of base 0 is
    left out, so this definition is meant for [base <> 0]. [bitSize = 0]
    stands for [IntSize], 64 on the platforms the program targets. *)
Definition ParseUint (s : string) (base bitSize : Z) : Z * option NumError :=
  if String.eqb s "" then (0, Some (syntaxError fnParseUint s))
  else if negb ((2 <=? base) && (base <=? 36))
  then (0, Some (baseError fnParseUint s base))
  else
    let bitSize' := if bitSize =? 0 then 64 else bitSize in
    if (bitSize' <? 0) || (bitSize' >? 64)
    then (0, Some (bitSizeError fnParseUint s bitSize))
    else
      let cutoff := maxUint64 / base + 1 in
      let maxVal := wrap64 (wrap64 (Z.shiftl 1 bitSize') - 1) in
      digits_loop s base cutoff maxVal s 0.

End strconv.

(** ** Panics and slicing *)

(** The run-time panics the program can raise. *)
Inductive panic :=
| SliceBoundsOutOfRange (low : nat) (len : nat).

(** A Go evaluation that either yields a value or panics. *)
Inductive Run (A : Type) :=
| Done (a : A)
| Panic (p : panic).
Arguments Done {A} a.
Arguments Panic {A} p.

(** [s[low:]]: panics when [low > len(s)]. *)
Definition slice_from (s : string) (low : nat) : Run string :=
  if (String.length s <? low)%nat
  then Panic (SliceBoundsOutOfRange low (String.length s))
  else Done (String.substring low (String.length s - low) s).

(** ** Errors *)

(** The values that reach a [%v] verb, and the [error] values the program
    handles. [fmt.Errorf] and [fmt.Printf] are kept unrendered: format and
    argument. *)
Inductive value :=
| VString (s : string)
| VUint (n : Z)
| VBool (b : bool)
| VAny (rendering : string)
| VError (e : error)
with error :=
| LibError (pkg msg : string)
| NumErr (e : strconv.NumError)
| Errorf (format : string) (arg : value).

(** [ParseHexUint64]: [strconv.ParseUint(hexStr[2:], 16, 64)]. *)
Definition ParseHexUint64 (hexStr : string) : Run (Z * option error) :=
  match slice_from hexStr 2 with
  | Panic p => Panic p
  | Done digits =>
      let '(n, err) := strconv.ParseUint digits 16 64 in
      Done (n, option_map NumErr err)
  end.

(** [fmt.Sprintf("0x%x", n)] for a [uint64]: lower-case digits, no padding. *)
Definition hex_char (d : Z) : ascii :=
  match String.get (Z.to_nat d) "0123456789abcdef" with
  | Some c => c
  | None => "0"%char
  end.

Fixpoint hex_digits (fuel : nat) (n : Z) (acc : string) : string :=
  match fuel with
  | O => acc
  | S fuel' =>
      let acc' := String (hex_char (n mod 16)) acc in
      if n / 16 =? 0 then acc' else hex_digits fuel' (n / 16) acc'
  end.

Definition Sprintf_0x_x (n : Z) : string := "0x" +:+ hex_digits 16 n "".

(** ** Wire types *)

(** [Transaction]. *)
Record Transaction := mkTransaction {
  Hash : string;
  BlockNumber : string;
  From : string;
  To : string;
  Value : string
}.

(** [Block]; its [Hash] field is [Block_Hash] here. *)
Record Block := mkBlock {
  Block_Hash : string;
  Transactions : list Transaction
}.

(** A decoded [interface{}] value. The program only ever prints it with
    [%v], so it is kept as that rendering. *)
Inductive any := Any (rendering : string).

(** [json.RawMessage]: the undecoded bytes of the [result] member, kept by
    what they are as JSON. [RawBlock b] is a JSON object that decodes into
    the [Block] [b]; [RawInvalid] is anything [json.Unmarshal] rejects for
    both result types of the program (no bytes at all, a number, an
    array, an object with an ill-typed member). *)
Inductive RawMessage :=
| RawNull
| RawString (s : string)
| RawBlock (b : Block)
| RawInvalid (msg : string).

(** [RPCResponse]. A JSON [null] or absent [error] member is [None]. *)
Record RPCResponse := mkRPCResponse {
  Result : RawMessage;
  Error : option any;
  ID : Z
}.

(** [json.Unmarshal(raw, &result)] for the two types the program decodes
    into: the updated target and the error. JSON [null] leaves the target
    as it is and is not an error. *)
Class Unmarshal (T : Type) := unmarshal : RawMessage -> T -> T * option error.

#[global] Instance Unmarshal_string : Unmarshal string := fun raw target =>
  match raw with
  | RawNull => (target, None)
  | RawString s => (s, None)
  | RawBlock _ => (target, Some (LibError "json" "cannot unmarshal object into Go value of type string"))
  | RawInvalid msg => (target, Some (LibError "json" msg))
  end.

#[global] Instance Unmarshal_Block : Unmarshal Block := fun raw target =>
  match raw with
  | RawNull => (target, None)
  | RawString _ => (target, Some (LibError "json" "cannot unmarshal string into Go value of type main.Block"))
  | RawBlock b => (b, None)
  | RawInvalid msg => (target, Some (LibError "json" msg))
  end.

(** ** The node *)

(** What [callRPCMethod] posts: the URL, the content type and the two
    holes of the body template ([method] and [params], which [toJSON]
    renders as a JSON array); [jsonrpc] and [id] are the constants "2.0" and 1. *)
Record Request := mkRequest {
  url : string;
  contentType : string;
  method : string;
  params : list value
}.

(** A response body, by what [json.NewDecoder(resp.Body).Decode(&response)]
    makes of it. *)
Inductive Body :=
| Malformed (msg : string)
| Envelope (response : RPCResponse).

(** The result of [http.Post]. *)
Inductive PostResult :=
| PostFailed (msg : string)
| Response (body : Body).

(** The node: its answer to a request, given the requests it has seen. *)
Definition Node := list Request -> Request -> PostResult.

(** ** Program state *)

(** A call of [fmt.Printf]: format and arguments. Format strings are kept
    as they are spelled in the source (an escape such as [\n] stays two
    characters). *)
Record Print := mkPrint { format : string; args : list value }.

(** The subscriber map, what was written to standard output, and the
    requests posted so far (oldest first). *)
Record World := mkWorld {
  subscribers : gmap string bool;
  stdout : list Print;
  posted : list Request
}.

Definition Exec (A : Type) : Type := World -> Run A * World.

Definition ret {A} (a : A) : Exec A := fun w => (Done a, w).

Definition bind {A B} (m : Exec A) (k : A -> Exec B) : Exec B := fun w =>
  match m w with
  | (Done a, w') => k a w'
  | (Panic p, w') => (Panic p, w')
  end.

Notation "'let*' x ':=' m 'in' k" := (bind m (fun x => k))
  (at level 10, x name, m at level 100, k at level 200).
Notation "'let*' ' pat ':=' m 'in' k" :=
  (bind m (fun x => match x with pat => k end))
  (at level 10, pat pattern, m at level 100, k at level 200).
Notation "'run' m 'then' k" := (bind m (fun _ => k))
  (at level 10, m at level 100, k at level 200).

Definition lift {A} (r : Run A) : Exec A := fun w => (r, w).

Definition Printf (fmt : string) (a : list value) : Exec unit := fun w =>
  (Done tt, mkWorld (subscribers w) (stdout w ++ [mkPrint fmt a]) (posted w)).

Definition http_Post (node : Node) (req : Request) : Exec PostResult := fun w =>
  (Done (node (posted w) req),
   mkWorld (subscribers w) (stdout w) (posted w ++ [req])).

Definition get_subscribers : Exec (gmap string bool) := fun w =>
  (Done (subscribers w), w).

Definition set_subscribers (m : gmap string bool) : Exec unit := fun w =>
  (Done tt, mkWorld m (stdout w) (posted w)).

(** ** callRPCMethod (the same text in the three snapshots) *)

Section RPC.
Context (node : Node) (Endpoint : string).

Definition callRPCMethod {T} `{Unmarshal T}
    (method : string) (params : list value) (result : T)
  : Exec (T * option error) :=
  let* resp := http_Post node (mkRequest Endpoint "application/json" method params) in
  match resp with
  | PostFailed msg => ret (result, Some (LibError "http" msg))
  | Response (Malformed msg) =>
      let err := LibError "json" msg in
      run Printf "Failed to decode JSON-RPC response: %v\n" [VError err] then
      ret (result, Some err)
  | Response (Envelope response) =>
      match Error response with
      | Some payload =>
          let 'Any r := payload in
          ret (result, Some (Errorf "JSON-RPC error: %v" (VAny r)))
      | None =>
          let '(result', err) := unmarshal (Result response) result in
          match err with
          | Some e =>
              ret (result', Some (Errorf "failed to parse response details: %v" (VError e)))
          | None => ret (result', None)
          end
      end
  end.
End RPC.

(** [ParseToAnySlice]: copies its arguments into a fresh slice. *)
Definition ParseToAnySlice (params : list value) : list value :=
  fold_left (fun allParams param => allParams ++ [param]) params [].

(** The loop at the end of [GetTransactions]. *)
Definition select_transactions (address : string) (block : Block) : list Transaction :=
  fold_left
    (fun transactions transaction =>
       if String.eqb (From transaction) address || String.eqb (To transaction) address
       then transactions ++ [transaction]
       else transactions)
    (Transactions block) [].

(** ** MemoryStorage (main.go and the first snapshot) *)

Module MemoryStorage.

Definition NewMemoryStorage : gmap string bool := ∅.

Definition GetSubscribers (memory : gmap string bool)
  : gmap string bool * option error := (memory, None).

Definition SetSubscriber (address : string) (memory : gmap string bool)
  : gmap string bool * option error := (<[address := true]> memory, None).

Definition IsSubscriber (address : string) (memory : gmap string bool) : bool :=
  match memory !! address with
  | None => false
  | Some value => value
  end.

End MemoryStorage.

(** ** main.go *)

Module Main.
Import MemoryStorage.

Section Parser.
Context (node : Node) (Endpoint : string).

(** [GetCurrentBlock() uint64]. *)
Definition GetCurrentBlock : Exec Z :=
  let* '(blockNumberHex, err) :=
    callRPCMethod node Endpoint "eth_blockNumber" [] "" in
  match err with
  | Some e => run Printf "error: %v" [VError e] then ret 0
  | None =>
      let* '(blockNumber, err) := lift (ParseHexUint64 blockNumberHex) in
      match err with
      | Some e => run Printf "error: %v" [VError e] then ret 0
      | None => ret blockNumber
      end
  end.

(** [GetTransactions(address string) []Transaction]. *)
Definition GetTransactions (address : string) : Exec (list Transaction) :=
  let transactions : list Transaction := [] in
  let block := mkBlock "" [] in
  if String.eqb address "" then
    run Printf "You need to define an address\n" [] then ret transactions
  else
    let* store := get_subscribers in
    if negb (IsSubscriber address store) then
      run Printf "Address: %v is not subscribed\n" [VString address] then
      ret transactions
    else
      let* blockNumber := GetCurrentBlock in
      if blockNumber =? 0 then
        run Printf "blockNumber is %v\n" [VUint 0] then ret transactions
      else
        let* '(block, err) :=
          callRPCMethod node Endpoint "eth_getBlockByNumber"
            (ParseToAnySlice [VString (Sprintf_0x_x blockNumber); VBool true])
            block in
        match err with
        | Some e => run Printf "error: %v" [VError e] then ret transactions
        | None => ret (select_transactions address block)
        end.

(** [SubscribeAddress(address string) bool]. *)
Definition SubscribeAddress (address : string) : Exec bool :=
  if String.eqb address "" then
    run Printf "You need to define an address\n" [] then ret false
  else
    let* store := get_subscribers in
    let '(store', err) := SetSubscriber address store in
    run set_subscribers store' then
    match err with
    | Some _ => ret false
    | None => ret true
    end.
End Parser.

End Main.

(** ** The first snapshot: results carry an error *)

Module MemDB.
Import MemoryStorage.

Section Parser.
Context (node : Node) (Endpoint : string).

(** [GetCurrentBlock() (uint64, error)]. *)
Definition GetCurrentBlock : Exec (Z * option error) :=
  let* '(blockNumberHex, err) :=
    callRPCMethod node Endpoint "eth_blockNumber" [] "" in
  match err with
  | Some e => ret (0, Some e)
  | None =>
      let* '(blockNumber, err) := lift (ParseHexUint64 blockNumberHex) in
      match err with
      | Some e => ret (0, Some e)
      | None => ret (blockNumber, None)
      end
  end.

(** [GetTransactions(address string) ([]Transaction, error)]. *)
Definition GetTransactions (address : string)
  : Exec (list Transaction * option error) :=
  let block := mkBlock "" [] in
  let* memoryDB := get_subscribers in
  if negb (IsSubscriber address memoryDB) then
    ret ([], Some (Errorf "Address: %v is not subscribed" (VString address)))
  else
    let* '(blockNumber, err) := GetCurrentBlock in
    match err with
    | Some e => ret ([], Some e)
    | None =>
        let* '(block, err) :=
          callRPCMethod node Endpoint "eth_getBlockByNumber"
            (ParseToAnySlice [VString (Sprintf_0x_x blockNumber); VBool true])
            block in
        match err with
        | Some e => ret ([], Some e)
        | None => ret (select_transactions address block, None)
        end
    end.

(** [SubscribeAddress(address string) bool]. *)
Definition SubscribeAddress (address : string) : Exec bool :=
  let* memoryDB := get_subscribers in
  let '(memoryDB', err) := SetSubscriber address memoryDB in
  run set_subscribers memoryDB' then
  match err with
  | Some _ => ret false
  | None => ret true
  end.
End Parser.

End MemDB.

(** ** The second snapshot: a bare map and UnsubscribeAddress *)

Module GlobalMap.

(** [parser.Subscribers[address]] read as a value: [false] when absent. *)
Definition index (Subscribers : gmap string bool) (address : string) : bool :=
  default false (Subscribers !! address).

Section Parser.
Context (node : Node) (Endpoint : string).

(** [GetCurrentBlock() (uint64, error)]. *)
Definition GetCurrentBlock : Exec (Z * option error) :=
  let* '(blockNumberHex, err) :=
    callRPCMethod node Endpoint "eth_blockNumber" [] "" in
  match err with
  | Some e => ret (0, Some e)
  | None =>
      let* '(blockNumber, err) := lift (ParseHexUint64 blockNumberHex) in
      match err with
      | Some e => ret (0, Some e)
      | None => ret (blockNumber, None)
      end
  end.

(** [GetTransactions(address string) ([]Transaction, error)]: no
    subscription check here, the command loop makes it. *)
Definition GetTransactions (address : string)
  : Exec (list Transaction * option error) :=
  let block := mkBlock "" [] in
  let* '(blockNumber, err) := GetCurrentBlock in
  match err with
  | Some e => ret ([], Some e)
  | None =>
      let* '(block, err) :=
        callRPCMethod node Endpoint "eth_getBlockByNumber"
          (ParseToAnySlice [VString (Sprintf_0x_x blockNumber); VBool true])
          block in
      match err with
      | Some e => ret ([], Some e)
      | None => ret (select_transactions address block, None)
      end
  end.

(** [SubscribeAddress(address string) bool]. *)
Definition SubscribeAddress (address : string) : Exec bool :=
  let* Subscribers := get_subscribers in
  run set_subscribers (<[address := true]> Subscribers) then
  let* Subscribers := get_subscribers in
  ret (index Subscribers address).

(** [UnsubscribeAddress(address string) bool]. *)
Definition UnsubscribeAddress (address : string) : Exec bool :=
  let* Subscribers := get_subscribers in
  run set_subscribers (delete address Subscribers) then
  let* Subscribers := get_subscribers in
  ret (index Subscribers address).
End Parser.

End GlobalMap.

(** ** toJSON *)

Section ToJSON.
(** [json.Marshal(param)], whose error [toJSON] drops: the bytes it yields. *)
Variable Marshal : value -> string.

(** The loop [for i, param := range params] of [toJSON]; [len] is
    [len(params)] and [builder] what has been written so far. *)
Fixpoint toJSON_loop (len : Z) (i : Z) (params : list value) (builder : string)
  : string :=
  match params with
  | [] => builder
  | param :: rest =>
      let builder := builder +:+ Marshal param in
      let builder := if i <? len - 1 then builder +:+ "," else builder in
      toJSON_loop len (i + 1) rest builder
  end.

(** [toJSON(params []interface{}) string]. *)
Definition toJSON (params : list value) : string :=
  if Z.of_nat (length params) =? 0 then "[]"
  else toJSON_loop (Z.of_nat (length params)) 0 params "[" +:+ "]".
End ToJSON.

(** ** The command loops *)

(** [fmt.Println(v)] with one operand writes what [fmt.Printf] writes for
    the format [%v\n]. *)
Definition Println (v : value) : Exec unit := Printf "%v\n" [v].

(** How [%v] renders a [Transaction] and a [[]Transaction]: the fields
    between braces, the elements between brackets, separated by spaces. *)
Definition Sprint_Transaction (t : Transaction) : string :=
  "{" +:+ Hash t +:+ " " +:+ BlockNumber t +:+ " " +:+ From t +:+ " " +:+ To t
      +:+ " " +:+ Value t +:+ "}".

Definition Sprint_Transactions (txs : list Transaction) : string :=
  "[" +:+ String.concat " " (map Sprint_Transaction txs) +:+ "]".

(** The endpoint [processCommands] configures. *)
Definition cloudflare : string := "https://cloudflare-eth.com".

(** [processCommands] of main.go. [command] is one turn of its loop, for
    the line [cmd] received from the channel; [serve] is the loop on the
    lines received, in order; a panic ends it. [Fields] is
    [strings.Fields]. *)
Module MainLoop.
Section Loop.
Context (Fields : string -> list string) (node : Node).

Definition command (cmd : string) : Exec unit :=
  let args := Fields cmd in
  if (length args <? 1)%nat then
    Println (VString "\nYou need to define an action (getCurrentBlock, getTransaction, SubscribeAddress)")
  else
    let action := nth 0 args ""%string in
    let address := if (1 <? length args)%nat then nth 1 args ""%string else ""%string in
    if String.eqb action "getCurrentBlock" then
      let* blockNumber := Main.GetCurrentBlock node cloudflare in
      Println (VUint blockNumber)
    else if String.eqb action "getTransaction" then
      let* transactions := Main.GetTransactions node cloudflare address in
      Println (VAny (Sprint_Transactions transactions))
    else if String.eqb action "subscribeAddress" then
      let* isSubscribed := Main.SubscribeAddress address in
      Println (VBool isSubscribed)
    else
      Printf "Invalid action: %v. please pick valid action (getCurrentBlock, getTransaction, subscribeAddress)"
        [VString action].

Fixpoint serve (cmds : list string) : Exec unit :=
  match cmds with
  | [] => ret tt
  | cmd :: rest => run command cmd then serve rest
  end.

Definition processCommands (cmds : list string) : Exec unit :=
  run set_subscribers MemoryStorage.NewMemoryStorage then serve cmds.
End Loop.
End MainLoop.

(** [processCommands] of the first snapshot. *)
Module MemDBLoop.
Section Loop.
Context (Fields : string -> list string) (node : Node).

Definition command (cmd : string) : Exec unit :=
  let args := Fields cmd in
  if (length args <? 1)%nat then
    Println (VString "\nYou need to define an action (getCurrentBlock, getTransaction, SubscribeAddress)")
  else
    let action := nth 0 args ""%string in
    let address := if (1 <? length args)%nat then nth 1 args ""%string else ""%string in
    if String.eqb action "getCurrentBlock" then
      let* '(blockNumber, err) := MemDB.GetCurrentBlock node cloudflare in
      match err with
      | Some e => Printf "\nError getting current block: %v" [VError e]
      | None => Println (VUint blockNumber)
      end
    else if String.eqb action "getTransaction" then
      if String.eqb address "" then
        Println (VString "\nYou need to define an address")
      else
        let* '(transactions, err) := MemDB.GetTransactions node cloudflare address in
        match err with
        | Some e => Printf "\nError getting transactions: %v" [VError e]
        | None => Println (VAny (Sprint_Transactions transactions))
        end
    else if String.eqb action "subscribeAddress" then
      if String.eqb address "" then
        Println (VString "\nYou need to define an address")
      else
        let* isSubscribed := MemDB.SubscribeAddress address in
        if negb isSubscribed then
          Printf "\nError subscribing to address: %v" [VString address]
        else Println (VBool isSubscribed)
    else
      Printf "Invalid action: %v. please pick valid action (getCurrentBlock, getTransaction, subscribeAddress)"
        [VString action].

Fixpoint serve (cmds : list string) : Exec unit :=
  match cmds with
  | [] => ret tt
  | cmd :: rest => run command cmd then serve rest
  end.

Definition processCommands (cmds : list string) : Exec unit :=
  run set_subscribers MemoryStorage.NewMemoryStorage then serve cmds.
End Loop.
End MemDBLoop.

(** [processCommands] of the second snapshot; the map it makes is the
    global [storage], handed to the parser. *)
Module GlobalMapLoop.
Section Loop.
Context (Fields : string -> list string) (node : Node).

Definition command (cmd : string) : Exec unit :=
  let args := Fields cmd in
  if (length args <? 1)%nat then
    Println (VString "You need to define an action (getCurrentBlock, getTransaction, SubscribeAddress)")
  else
    let action := nth 0 args ""%string in
    let address := if (1 <? length args)%nat then nth 1 args ""%string else ""%string in
    if String.eqb action "getCurrentBlock" then
      let* '(blockNumber, err) := GlobalMap.GetCurrentBlock node cloudflare in
      match err with
      | Some e => Printf "Error getting current block: %v" [VError e]
      | None => Println (VUint blockNumber)
      end
    else if String.eqb action "getTransaction" then
      if String.eqb address "" then
        Println (VString "You need to define an address")
      else
        let* Subscribers := get_subscribers in
        if negb (GlobalMap.index Subscribers address) then
          Printf "Address: %v is not subscribed" [VString address]
        else
          let* '(transactions, err) := GlobalMap.GetTransactions node cloudflare address in
          match err with
          | Some e => Printf "Error getting current block: %v" [VError e]
          | None => Println (VAny (Sprint_Transactions transactions))
          end
    else if String.eqb action "subscribeAddress" then
      if String.eqb address "" then
        Println (VString "You need to define an address")
      else
        let* isSubscribed := GlobalMap.SubscribeAddress address in
        if negb isSubscribed then
          Printf "Error subscribing to address: %v" [VString address]
        else Println (VBool isSubscribed)
    else
      Printf "Invalid action: %v. please pick valid action (getCurrentBlock, getTransaction, subscribeAddress)"
        [VString action].

Fixpoint serve (cmds : list string) : Exec unit :=
  match cmds with
  | [] => ret tt
  | cmd :: rest => run command cmd then serve rest
  end.

Definition processCommands (cmds : list string) : Exec unit :=
  run set_subscribers ∅ then serve cmds.
End Loop.
End GlobalMapLoop.

(** * Specification-side definitions *)

(** ** Hex digit strings *)

(** The reading of a digit string that the specification has in mind:
    hexadecimal digits are [0-9], [a-f] and [A-F], and the value of a digit
    string is its base-16 value, most significant digit first. These are
    written from the specification's words, to be compared with
    [strconv.ParseUint]. *)
Definition is_hex_digit (c : ascii) : bool :=
  let b := byte_of c in
  ((48 <=? b) && (b <=? 57)) || ((97 <=? b) && (b <=? 102)) || ((65 <=? b) && (b <=? 70)).

Definition hex_digit_value (c : ascii) : Z :=
  let b := byte_of c in
  if b <=? 57 then b - 48 else if b <=? 70 then b - 55 else b - 87.

Fixpoint all_hex (s : string) : bool :=
  match s with
  | EmptyString => true
  | String c rest => is_hex_digit c && all_hex rest
  end.

Fixpoint hex_value_from (acc : Z) (s : string) : Z :=
  match s with
  | EmptyString => acc
  | String c rest => hex_value_from (16 * acc + hex_digit_value c) rest
  end.

Definition hex_value (s : string) : Z := hex_value_from 0 s.

Definition has_0x_prefix (s : string) : bool := String.prefix "0x" s.

(** The digit switch of [ParseUint] against the specification's digits,
    checked byte by byte. *)
Definition digit_agrees (c : ascii) : bool :=
  match strconv.digit_of (byte_of c) with
  | Some d =>
      if is_hex_digit c
      then (d =? hex_digit_value c) && (0 <=? d) && (d <? 16)
      else 16 <=? d
  | None => negb (is_hex_digit c)
  end.

(** The two constants [ParseUint] computes for base 16 and 64 bits. *)
Definition cutoff16 : Z := maxUint64 / 16 + 1.
Definition maxVal64 : Z := wrap64 (wrap64 (Z.shiftl 1 64) - 1).

(** ** Frames and steps *)

(** An operation that never writes the subscriber map, on any path,
    returning or panicking. *)
Definition keeps_subscribers {A} (m : Exec A) : Prop :=
  forall w, subscribers (snd (m w)) = subscribers w.

(** The request [callRPCMethod] posts, and the world after a post or a print. *)
Definition request_for (Endpoint method : string) (params : list value) : Request :=
  mkRequest Endpoint "application/json" method params.

Definition sent (w : World) (req : Request) : World :=
  mkWorld (subscribers w) (stdout w) (posted w ++ [req]).

Definition printed (w : World) (fmt : string) (a : list value) : World :=
  mkWorld (subscribers w) (stdout w ++ [mkPrint fmt a]) (posted w).

(** ** Failures of the block-height query *)

(** The ways the block-height query can fail, read off the node's reply to
    the [eth_blockNumber] request, each with the error it gives rise to. *)
Inductive height_failure (reply : PostResult) : error -> Prop :=
| transport_failure msg :
    reply = PostFailed msg ->
    height_failure reply (LibError "http" msg)
| body_failure msg :
    reply = Response (Malformed msg) ->
    height_failure reply (LibError "json" msg)
| node_failure raw r id :
    reply = Response (Envelope (mkRPCResponse raw (Some (Any r)) id)) ->
    height_failure reply (Errorf "JSON-RPC error: %v" (VAny r))
| result_failure raw id target e :
    reply = Response (Envelope (mkRPCResponse raw None id)) ->
    unmarshal raw ""%string = (target, Some e) ->
    height_failure reply (Errorf "failed to parse response details: %v" (VError e))
| hex_failure raw id hex n e :
    reply = Response (Envelope (mkRPCResponse raw None id)) ->
    unmarshal raw ""%string = (hex, None) ->
    ParseHexUint64 hex = Done (n, Some e) ->
    height_failure reply e.

(** ** Selection *)

(** The selection the specification asks for: the transactions whose
    [from] or [to] is the address, in the order of the block. *)
Definition touches (address : string) (t : Transaction) : bool :=
  String.eqb (From t) address || String.eqb (To t) address.

Definition transactions_touching (address : string) (txs : list Transaction)
  : list Transaction := List.filter (touches address) txs.

(** ** Failures of the block request *)

(** The ways the [eth_getBlockByNumber] call can fail, read off the node's
    reply, each with the error [callRPCMethod] returns for it. *)
Inductive block_failure (reply : PostResult) : error -> Prop :=
| block_transport_failure msg :
    reply = PostFailed msg ->
    block_failure reply (LibError "http" msg)
| block_body_failure msg :
    reply = Response (Malformed msg) ->
    block_failure reply (LibError "json" msg)
| block_node_failure raw r id :
    reply = Response (Envelope (mkRPCResponse raw (Some (Any r)) id)) ->
    block_failure reply (Errorf "JSON-RPC error: %v" (VAny r))
| block_result_failure raw id target e :
    reply = Response (Envelope (mkRPCResponse raw None id)) ->
    unmarshal raw (mkBlock "" []) = (target, Some e) ->
    block_failure reply (Errorf "failed to parse response details: %v" (VError e)).

(** The request for the block at a height. *)
Definition block_request_for (Endpoint : string) (blockNumber : Z) : Request :=
  request_for Endpoint "eth_getBlockByNumber"
    [VString (Sprintf_0x_x blockNumber); VBool true].

(** The requests a run of [GetTransactions] may have posted. *)
Definition query_trace (Endpoint : string) (reqs : list Request) : Prop :=
  reqs = [] \/
  reqs = [request_for Endpoint "eth_blockNumber" []] \/
  exists h, reqs = [request_for Endpoint "eth_blockNumber" [];
                    block_request_for Endpoint h].

(** ** Invariants and bounds of an operation *)

(** An operation under which a property of the subscriber map, once true,
    stays true, on every path. *)
Definition preserves {A} (P : gmap string bool -> Prop) (m : Exec A) : Prop :=
  forall w, P (subscribers w) -> P (subscribers (snd (m w))).

(** An operation that posts at most [k] requests, on every path, and
    does nothing else to the trace. *)
Definition posts_at_most {A} (k : nat) (m : Exec A) : Prop :=
  forall w, exists reqs,
    posted (snd (m w)) = posted w ++ reqs /\ (length reqs <= k)%nat.

(** The map holds [true] wherever it holds anything. *)
Definition all_true (memory : gmap string bool) : Prop :=
  forall address value, memory !! address = Some value -> value = true.

(** What one turn of a command loop may do to the subscriber map: nothing,
    or, for the action [subscribeAddress] with a non-empty address, store
    [true] under that address. *)
Definition registry_effect (action address : string)
    (before after : gmap string bool) : Prop :=
  after = before \/
  (action = "subscribeAddress"%string /\ address <> ""%string /\
   after = <[address := true]> before).

(** An operation that posts nothing. *)
Definition silent {A} (m : Exec A) : Prop :=
  forall w, posted (snd (m w)) = posted w.

(** The state of a map made by [processCommands]: the empty address is
    no subscriber and every stored value is [true]. *)
Definition well_kept (memory : gmap string bool) : Prop :=
  MemoryStorage.IsSubscriber "" memory = false /\ all_true memory.

(** The requests of a session go to the configured endpoint as JSON. *)
Definition to_cloudflare (req : Request) : Prop :=
  url req = cloudflare /\ contentType req = "application/json"%string.

(** ** Test doubles *)

Module Mock.

Definition endpoint : string := "https://cloudflare-eth.com".

Definition X : string := "0xb794f5ea0ba39494ce839613fffba74279579268".
Definition Y : string := "0x00000000219ab540356cbb839cbe05303d7705fa".
Definition Z' : string := "0xc02aaa39b223fe8d0a0e5c4f27ead9083c756cc2".
Definition W : string := "0xda9dfa130df4de4673b89022ee50ff26f6ea73cf".
Definition V : string := "0xbe0eb53f46cd790cd13851d5eff43d12404d33e8".
Definition U : string := "0x000000000000000000000000000000000000dead".

Definition tx1 : Transaction := mkTransaction "0x01" "0x5" X Y "0xde0b6b3a7640000".
Definition tx2 : Transaction := mkTransaction "0x02" "0x5" Z' X "0x0".
Definition tx3 : Transaction := mkTransaction "0x03" "0x5" W V "0x1".

Definition block5 : Block := mkBlock "0xb5" [tx1; tx2; tx3].

Definition method_not_found : any := Any "map[code:-32601 message:method not found]".

(** A node at height 5 that serves [block5]. *)
Definition node_at_5 : Node := fun _ req =>
  if String.eqb (method req) "eth_blockNumber" then
    Response (Envelope (mkRPCResponse (RawString "0x5") None 1))
  else
    match method req, params req with
    | "eth_getBlockByNumber"%string, [VString "0x5"; VBool true] =>
        Response (Envelope (mkRPCResponse (RawBlock block5) None 1))
    | _, _ => Response (Envelope (mkRPCResponse RawNull (Some method_not_found) 1))
    end.

(** A node that cannot be reached. *)
Definition node_down : Node := fun _ _ => PostFailed "connection refused".

(** A node whose body is not JSON. *)
Definition node_garbled : Node := fun _ _ => Response (Malformed "invalid character '<'").

(** A node that answers every call with an error envelope whose [result]
    member is not decodable either. *)
Definition node_refusing : Node := fun _ _ =>
  Response (Envelope (mkRPCResponse (RawInvalid "unexpected end of JSON input")
                        (Some method_not_found) 1)).

(** A node at height 0, and nodes with a malformed height. *)
Definition node_at_0 : Node := fun _ _ =>
  Response (Envelope (mkRPCResponse (RawString "0x0") None 1)).

Definition node_height (hex : string) : Node := fun _ _ =>
  Response (Envelope (mkRPCResponse (RawString hex) None 1)).

Definition fresh : World := mkWorld ∅ [] [].

Definition subscribed (address : string) : World :=
  mkWorld (<[address := true]> ∅) [] [].

End Mock.


(** [strings.Fields] as it works on ASCII text, where the separators are
    the bytes of [asciiSpace]: tab, line feed, vertical tab, form feed,
    carriage return and space. Used to run the command loops on examples. *)
Module MockCLI.

Definition is_ascii_space (c : ascii) : bool :=
  let b := byte_of c in ((9 <=? b) && (b <=? 13)) || (b =? 32).

Fixpoint fields_from (s : string) (field : string) : list string :=
  match s with
  | EmptyString => if String.eqb field "" then [] else [field]
  | String c rest =>
      if is_ascii_space c then
        if String.eqb field "" then fields_from rest ""
        else field :: fields_from rest ""
      else fields_from rest (field +:+ String c "")
  end.

Definition Fields (s : string) : list string := fields_from s "".

End MockCLI.

(** More nodes to run the queries against. *)
Module MockNodes.

(** A node at height 5 that cannot be reached for anything else. *)
Definition node_block_down : Node := fun _ req =>
  if String.eqb (method req) "eth_blockNumber" then
    Response (Envelope (mkRPCResponse (RawString "0x5") None 1))
  else PostFailed "connection reset".

(** A node at height 5 that has no block to give. *)
Definition node_block_null : Node := fun _ req =>
  if String.eqb (method req) "eth_blockNumber" then
    Response (Envelope (mkRPCResponse (RawString "0x5") None 1))
  else Response (Envelope (mkRPCResponse RawNull None 1)).

(** A node at height 0 whose block 0 holds one transaction sent by [X]. *)
Definition tx0 : Transaction := mkTransaction "0x00" "0x0" Mock.X Mock.Y "0x2".

Definition block0 : Block := mkBlock "0xb0" [tx0].

Definition node_genesis : Node := fun _ req =>
  if String.eqb (method req) "eth_blockNumber" then
    Response (Envelope (mkRPCResponse (RawString "0x0") None 1))
  else
    match params req with
    | [VString "0x0"; VBool true] =>
        Response (Envelope (mkRPCResponse (RawBlock block0) None 1))
    | _ => Response (Envelope (mkRPCResponse RawNull None 1))
    end.

End MockNodes.

(** * Properties *)

(** ** Hex parsing *)

Example ParseHexUint64_0x10 : ParseHexUint64 "0x10" = Done (16, None).
Proof. reflexivity. Qed.

Example ParseHexUint64_mixed_case : ParseHexUint64 "0x1aF" = Done (431, None).
Proof. reflexivity. Qed.

Example ParseHexUint64_max :
  ParseHexUint64 "0xffffffffffffffff" = Done (maxUint64, None).
Proof. reflexivity. Qed.

Example ParseHexUint64_overflow :
  ParseHexUint64 "0x10000000000000000" =
    Done (maxUint64,
          Some (NumErr (strconv.rangeError "ParseUint" "10000000000000000"))).
Proof. reflexivity. Qed.

Example ParseHexUint64_not_hex :
  ParseHexUint64 "0x12g4" =
    Done (0, Some (NumErr (strconv.syntaxError "ParseUint" "12g4"))).
Proof. reflexivity. Qed.

Example ParseHexUint64_no_digits :
  ParseHexUint64 "0x" = Done (0, Some (NumErr (strconv.syntaxError "ParseUint" ""))).
Proof. reflexivity. Qed.

Example Sprintf_0x_x_samples :
  Sprintf_0x_x 0 = "0x0"%string /\ Sprintf_0x_x 5 = "0x5"%string /\
  Sprintf_0x_x 255 = "0xff"%string /\
  Sprintf_0x_x maxUint64 = "0xffffffffffffffff"%string.
Proof. repeat split. Qed.

Example ParseHexUint64_of_Sprintf :
  ParseHexUint64 (Sprintf_0x_x 19000000) = Done (19000000, None).
Proof. reflexivity. Qed.

Example has_0x_prefix_samples :
  has_0x_prefix "0x10" = true /\ has_0x_prefix "10" = false /\ has_0x_prefix "" = false.
Proof. repeat split. Qed.


Module HexFacts.
Import strconv.

Lemma digit_agrees_all c : digit_agrees c = true.
Proof.
  destruct c as [b0 b1 b2 b3 b4 b5 b6 b7].
  destruct b0, b1, b2, b3, b4, b5, b6, b7; vm_compute; reflexivity.
Qed.

Lemma digit_of_hex c :
  is_hex_digit c = true ->
  digit_of (byte_of c) = Some (hex_digit_value c) /\ 0 <= hex_digit_value c < 16.
Proof.
  intros Hc. pose proof (digit_agrees_all c) as Ha. unfold digit_agrees in Ha.
  rewrite Hc in Ha. destruct (digit_of (byte_of c)) as [d|]; [|discriminate].
  apply andb_prop in Ha as [Ha Hlt]. apply andb_prop in Ha as [Heq Hge].
  apply Z.eqb_eq in Heq. subst d. split; [reflexivity|lia].
Qed.

Lemma digit_of_not_hex c :
  is_hex_digit c = false ->
  digit_of (byte_of c) = None \/ exists d, digit_of (byte_of c) = Some d /\ 16 <= d.
Proof.
  intros Hc. pose proof (digit_agrees_all c) as Ha. unfold digit_agrees in Ha.
  rewrite Hc in Ha. destruct (digit_of (byte_of c)) as [d|]; [|now left].
  right. exists d. split; [reflexivity|lia].
Qed.

Lemma hex_value_from_ge s : forall acc,
  all_hex s = true -> 0 <= acc -> acc <= hex_value_from acc s.
Proof.
  induction s as [|c rest IH]; intros acc Hall Hacc; simpl; [lia|].
  simpl in Hall. apply andb_prop in Hall as [Hc Hrest].
  destruct (digit_of_hex c Hc) as [_ Hd].
  specialize (IH (16 * acc + hex_digit_value c) Hrest). lia.
Qed.

Lemma cutoff16_eq : cutoff16 = 2 ^ 60.
Proof. reflexivity. Qed.

Lemma maxVal64_eq : maxVal64 = 2 ^ 64 - 1.
Proof. reflexivity. Qed.

(** The loop on a string of hex digits: it returns the value when that
    fits 64 bits and the range error otherwise. *)
Lemma digits_loop_all_hex s0 s : forall n,
  all_hex s = true -> 0 <= n < 2 ^ 64 ->
  digits_loop s0 16 cutoff16 maxVal64 s n =
    if hex_value_from n s <? 2 ^ 64
    then (hex_value_from n s, None)
    else (maxVal64, Some (rangeError fnParseUint s0)).
Proof.
  induction s as [|c rest IH]; intros n Hall Hn; simpl.
  - destruct (Z.ltb_spec n (2 ^ 64)); [reflexivity|lia].
  - simpl in Hall. apply andb_prop in Hall as [Hc Hrest].
    destruct (digit_of_hex c Hc) as [-> Hd].
    destruct (Z.geb_spec (hex_digit_value c) 16) as [?|_]; [lia|].
    rewrite cutoff16_eq at 1.
    destruct (Z.geb_spec n (2 ^ 60)) as [Hcut|Hcut].
    + pose proof (hex_value_from_ge rest (16 * n + hex_digit_value c) Hrest) as Hge.
      destruct (Z.ltb_spec (hex_value_from (16 * n + hex_digit_value c) rest) (2 ^ 64));
        [lia|reflexivity].
    + assert (Hw1 : wrap64 (n * 16) = 16 * n).
      { unfold wrap64, uint64_modulus. rewrite Z.mod_small; lia. }
      rewrite Hw1.
      assert (Hw2 : wrap64 (16 * n + hex_digit_value c) = 16 * n + hex_digit_value c).
      { unfold wrap64, uint64_modulus. rewrite Z.mod_small; lia. }
      rewrite Hw2.
      destruct (Z.ltb_spec (16 * n + hex_digit_value c) (16 * n)) as [?|_]; [lia|].
      rewrite maxVal64_eq at 1.
      destruct (Z.gtb_spec (16 * n + hex_digit_value c) (2 ^ 64 - 1)) as [?|_]; [lia|].
      simpl. apply IH; [assumption|lia].
Qed.

(** The loop on a string with a character that is no hex digit: an error,
    whatever the accumulator. *)
Lemma digits_loop_not_hex s0 s : forall n,
  all_hex s = false ->
  digits_loop s0 16 cutoff16 maxVal64 s n = (0, Some (syntaxError fnParseUint s0)) \/
  digits_loop s0 16 cutoff16 maxVal64 s n = (maxVal64, Some (rangeError fnParseUint s0)).
Proof.
  induction s as [|c rest IH]; intros n Hall; simpl in *; [discriminate|].
  destruct (is_hex_digit c) eqn:Hc.
  - destruct (digit_of_hex c Hc) as [-> _]. simpl in Hall.
    repeat match goal with
           | |- context [if ?b then _ else _] => destruct b
           end; auto.
  - destruct (digit_of_not_hex c Hc) as [-> | (d & -> & Hd)]; [auto|].
    destruct (Z.geb_spec d 16); [auto|lia].
Qed.

Lemma ParseUint_16_64 c rest :
  ParseUint (String c rest) 16 64 =
    digits_loop (String c rest) 16 cutoff16 maxVal64 (String c rest) 0.
Proof. reflexivity. Qed.

Lemma substring_all s : String.substring 0 (String.length s) s = s.
Proof. induction s as [|c rest IH]; simpl; [reflexivity|now rewrite IH]. Qed.

Lemma slice_from_2 c1 c2 digits :
  slice_from (String c1 (String c2 digits)) 2 = Done digits.
Proof.
  unfold slice_from. simpl String.length.
  replace (S (S (String.length digits)) - 2)%nat with (String.length digits) by lia.
  simpl. now rewrite substring_all.
Qed.

Lemma slice_from_short s :
  (String.length s < 2)%nat ->
  slice_from s 2 = Panic (SliceBoundsOutOfRange 2 (String.length s)).
Proof.
  intros Hlen. unfold slice_from.
  destruct (Nat.ltb_spec (String.length s) 2); [reflexivity|lia].
Qed.

End HexFacts.

Section HexParsing.
Import strconv HexFacts.

Lemma ParseHexUint64_digits c1 c2 c rest :
  ParseHexUint64 (String c1 (String c2 (String c rest))) =
    let '(n, err) := digits_loop (String c rest) 16 cutoff16 maxVal64 (String c rest) 0 in
    Done (n, option_map NumErr err).
Proof. unfold ParseHexUint64. rewrite slice_from_2. reflexivity. Qed.

(** C1, as the code has it: [ParseHexUint64] drops the first two bytes of
    its argument without looking at them and reads the rest in base 16.
    For every string of at least two bytes, with [digits] what follows
    the first two: when [digits] is a non-empty string of hex digits
    whose value fits 64 bits the result is that value and no error; when
    [digits] is empty the result is the syntax error; when [digits] has a
    character that is no hex digit the result is an error (syntax, or
    range if 64 bits overflow before that character is reached); when
    [digits] is all hex digits and the value does not fit the result is
    the range error, with the value [2^64 - 1]. *)
Theorem ParseHexUint64_reads_after_two_bytes (c1 c2 : ascii) (digits : string) :
  let hexStr := String c1 (String c2 digits) in
  (digits <> "" -> all_hex digits = true -> hex_value digits < 2 ^ 64 ->
   ParseHexUint64 hexStr = Done (hex_value digits, None)) /\
  (digits = "" ->
   ParseHexUint64 hexStr = Done (0, Some (NumErr (syntaxError fnParseUint "")))) /\
  (all_hex digits = false ->
   ParseHexUint64 hexStr = Done (0, Some (NumErr (syntaxError fnParseUint digits))) \/
   ParseHexUint64 hexStr = Done (maxUint64, Some (NumErr (rangeError fnParseUint digits)))) /\
  (all_hex digits = true -> 2 ^ 64 <= hex_value digits ->
   ParseHexUint64 hexStr = Done (maxUint64, Some (NumErr (rangeError fnParseUint digits)))).
Proof.
  intros hexStr. subst hexStr. repeat split.
  - intros Hne Hall Hfit. destruct digits as [|c rest]; [congruence|].
    rewrite ParseHexUint64_digits, digits_loop_all_hex by (assumption || lia).
    fold (hex_value (String c rest)).
    destruct (Z.ltb_spec (hex_value (String c rest)) (2 ^ 64)); [reflexivity|lia].
  - intros ->. reflexivity.
  - intros Hall. destruct digits as [|c rest]; [discriminate|].
    rewrite ParseHexUint64_digits.
    destruct (digits_loop_not_hex (String c rest) (String c rest) 0 Hall) as [-> | ->];
      [left|right]; reflexivity.
  - intros Hall Hbig. destruct digits as [|c rest]; [simpl in Hbig; unfold hex_value in Hbig; simpl in Hbig; lia|].
    rewrite ParseHexUint64_digits, digits_loop_all_hex by (assumption || lia).
    fold (hex_value (String c rest)).
    destruct (Z.ltb_spec (hex_value (String c rest)) (2 ^ 64)); [lia|reflexivity].
Qed.

(** The two examples of the specification, and a string without the prefix. *)
Lemma ParseHexUint64_reads_after_two_bytes_witness :
  ParseHexUint64 "0x10" = Done (16, None) /\
  ParseHexUint64 "0x0" = Done (0, None) /\
  ParseHexUint64 "1234" = Done (52, None).
Proof.
  split; [|split].
  - apply (proj1 (ParseHexUint64_reads_after_two_bytes "0" "x" "10"));
      [discriminate | reflexivity | reflexivity].
  - apply (proj1 (ParseHexUint64_reads_after_two_bytes "0" "x" "0"));
      [discriminate | reflexivity | reflexivity].
  - apply (proj1 (ParseHexUint64_reads_after_two_bytes "1" "2" "34"));
      [discriminate | reflexivity | reflexivity].
Defined.

(** C1 as stated fails: ["1234"] has no [0x] prefix, and it parses, to
    [0x34]. So "a string without the prefix fails" does not hold. *)
Lemma ParseHexUint64_missing_prefix_accepted :
  has_0x_prefix "1234" = false /\
  ParseHexUint64 "1234" = Done (52, None) /\
  ~ (forall hexStr : string,
       has_0x_prefix hexStr = false ->
       exists n e, ParseHexUint64 hexStr = Done (n, Some e)).
Proof.
  split; [reflexivity|]. split; [reflexivity|].
  intros Hclaim. destruct (Hclaim "1234" eq_refl) as (n & e & Hrun).
  discriminate Hrun.
Qed.

(** Below two bytes the slice expression panics. *)
Lemma ParseHexUint64_short hexStr :
  (String.length hexStr < 2)%nat ->
  ParseHexUint64 hexStr = Panic (SliceBoundsOutOfRange 2 (String.length hexStr)).
Proof.
  intros Hlen. unfold ParseHexUint64. now rewrite slice_from_short.
Qed.

End HexParsing.

(** ** What an operation leaves untouched *)

Section Frames.

Lemma keeps_ret {A} (a : A) : keeps_subscribers (ret a).
Proof. intros w. reflexivity. Qed.

Lemma keeps_lift {A} (r : Run A) : keeps_subscribers (lift r).
Proof. intros w. reflexivity. Qed.

Lemma keeps_Printf fmt a : keeps_subscribers (Printf fmt a).
Proof. intros w. reflexivity. Qed.

Lemma keeps_http_Post node req : keeps_subscribers (http_Post node req).
Proof. intros w. reflexivity. Qed.

Lemma keeps_get_subscribers : keeps_subscribers get_subscribers.
Proof. intros w. reflexivity. Qed.

Lemma keeps_bind {A B} (m : Exec A) (k : A -> Exec B) :
  keeps_subscribers m -> (forall a, keeps_subscribers (k a)) ->
  keeps_subscribers (bind m k).
Proof.
  intros Hm Hk w. unfold bind. specialize (Hm w).
  destruct (m w) as [[a|p] w']; simpl in *; [|assumption].
  rewrite Hk. assumption.
Qed.

End Frames.

Ltac keeps_step :=
  first
    [ apply keeps_ret | apply keeps_lift | apply keeps_Printf
    | apply keeps_http_Post | apply keeps_get_subscribers
    | assumption
    | apply keeps_bind; [|intro]
    | match goal with
      | |- forall _, _ => intro
      | |- keeps_subscribers (match ?x with _ => _ end) => destruct x
      | |- keeps_subscribers (if ?b then _ else _) => destruct b
      | |- keeps_subscribers (let '(_, _) := ?x in _) => destruct x
      end ].

Ltac keeps := repeat keeps_step.

Section Keeps.
Context (node : Node) (Endpoint : string).

Lemma keeps_callRPCMethod {T} `{Unmarshal T} method params (result : T) :
  keeps_subscribers (callRPCMethod node Endpoint method params result).
Proof. unfold callRPCMethod. keeps. Qed.

Lemma keeps_Main_GetCurrentBlock :
  keeps_subscribers (Main.GetCurrentBlock node Endpoint).
Proof.
  unfold Main.GetCurrentBlock.
  apply keeps_bind; [apply keeps_callRPCMethod|]. keeps.
Qed.

Lemma keeps_Main_GetTransactions address :
  keeps_subscribers (Main.GetTransactions node Endpoint address).
Proof.
  unfold Main.GetTransactions.
  destruct (String.eqb address ""); [keeps|].
  apply keeps_bind; [keeps|]. intros store.
  destruct (negb _); [keeps|].
  apply keeps_bind; [apply keeps_Main_GetCurrentBlock|]. intros blockNumber.
  destruct (blockNumber =? 0); [keeps|].
  apply keeps_bind; [apply keeps_callRPCMethod|]. keeps.
Qed.

Lemma keeps_MemDB_GetCurrentBlock :
  keeps_subscribers (MemDB.GetCurrentBlock node Endpoint).
Proof.
  unfold MemDB.GetCurrentBlock.
  apply keeps_bind; [apply keeps_callRPCMethod|]. keeps.
Qed.

Lemma keeps_MemDB_GetTransactions address :
  keeps_subscribers (MemDB.GetTransactions node Endpoint address).
Proof.
  unfold MemDB.GetTransactions.
  apply keeps_bind; [keeps|]. intros memoryDB.
  destruct (negb _); [keeps|].
  apply keeps_bind; [apply keeps_MemDB_GetCurrentBlock|]. intros [blockNumber [e|]]; [keeps|].
  apply keeps_bind; [apply keeps_callRPCMethod|]. keeps.
Qed.

Lemma keeps_GlobalMap_GetCurrentBlock :
  keeps_subscribers (GlobalMap.GetCurrentBlock node Endpoint).
Proof.
  unfold GlobalMap.GetCurrentBlock.
  apply keeps_bind; [apply keeps_callRPCMethod|]. keeps.
Qed.

Lemma keeps_GlobalMap_GetTransactions address :
  keeps_subscribers (GlobalMap.GetTransactions node Endpoint address).
Proof.
  unfold GlobalMap.GetTransactions.
  apply keeps_bind; [apply keeps_GlobalMap_GetCurrentBlock|]. intros [blockNumber [e|]]; [keeps|].
  apply keeps_bind; [apply keeps_callRPCMethod|]. keeps.
Qed.

(** C9: the block-height query and the transaction query leave the
    subscriber map as it was, on every path: every failure (empty
    address, address not subscribed, transport failure, undecodable
    body, error envelope, parse failure), and every success and panic as
    well. This holds in [main.go] and in both snapshots. *)
Theorem failed_queries_keep_registry (address : string) (w : World) :
  subscribers (snd (Main.GetCurrentBlock node Endpoint w)) = subscribers w /\
  subscribers (snd (Main.GetTransactions node Endpoint address w)) = subscribers w /\
  subscribers (snd (MemDB.GetCurrentBlock node Endpoint w)) = subscribers w /\
  subscribers (snd (MemDB.GetTransactions node Endpoint address w)) = subscribers w /\
  subscribers (snd (GlobalMap.GetCurrentBlock node Endpoint w)) = subscribers w /\
  subscribers (snd (GlobalMap.GetTransactions node Endpoint address w)) = subscribers w.
Proof.
  repeat split.
  - apply keeps_Main_GetCurrentBlock.
  - apply keeps_Main_GetTransactions.
  - apply keeps_MemDB_GetCurrentBlock.
  - apply keeps_MemDB_GetTransactions.
  - apply keeps_GlobalMap_GetCurrentBlock.
  - apply keeps_GlobalMap_GetTransactions.
Qed.

End Keeps.

(** ** Single steps of callRPCMethod *)

Ltac exec_unfold :=
  unfold callRPCMethod, bind, ret, lift, http_Post, Printf, get_subscribers,
    set_subscribers, request_for, sent, printed in *.

Section Steps.
Context (node : Node) (Endpoint : string).
Context {T : Type} `{Unmarshal T}.
Variables (method : string) (params : list value) (result : T) (w : World).

Lemma callRPCMethod_transport msg :
  node (posted w) (request_for Endpoint method params) = PostFailed msg ->
  callRPCMethod node Endpoint method params result w =
    (Done (result, Some (LibError "http" msg)), sent w (request_for Endpoint method params)).
Proof. intros Hreply. exec_unfold. simpl. now rewrite Hreply. Qed.

Lemma callRPCMethod_malformed msg :
  node (posted w) (request_for Endpoint method params) = Response (Malformed msg) ->
  callRPCMethod node Endpoint method params result w =
    (Done (result, Some (LibError "json" msg)),
     printed (sent w (request_for Endpoint method params)) "Failed to decode JSON-RPC response: %v\n"
       [VError (LibError "json" msg)]).
Proof. intros Hreply. exec_unfold. simpl. now rewrite Hreply. Qed.

Lemma callRPCMethod_node_error raw r id :
  node (posted w) (request_for Endpoint method params) = Response (Envelope (mkRPCResponse raw (Some (Any r)) id)) ->
  callRPCMethod node Endpoint method params result w =
    (Done (result, Some (Errorf "JSON-RPC error: %v" (VAny r))), sent w (request_for Endpoint method params)).
Proof. intros Hreply. exec_unfold. simpl. now rewrite Hreply. Qed.

Lemma callRPCMethod_result_rejected raw id target e :
  node (posted w) (request_for Endpoint method params) = Response (Envelope (mkRPCResponse raw None id)) ->
  unmarshal raw result = (target, Some e) ->
  callRPCMethod node Endpoint method params result w =
    (Done (target, Some (Errorf "failed to parse response details: %v" (VError e))),
     sent w (request_for Endpoint method params)).
Proof.
  intros Hreply Hdec. exec_unfold. simpl. rewrite Hreply. simpl.
  now rewrite Hdec.
Qed.

Lemma callRPCMethod_result_decoded raw id target :
  node (posted w) (request_for Endpoint method params) = Response (Envelope (mkRPCResponse raw None id)) ->
  unmarshal raw result = (target, None) ->
  callRPCMethod node Endpoint method params result w =
    (Done (target, None), sent w (request_for Endpoint method params)).
Proof.
  intros Hreply Hdec. exec_unfold. simpl. rewrite Hreply. simpl.
  now rewrite Hdec.
Qed.

(** C5: when the decoded envelope has a non-null [error] member,
    [callRPCMethod] returns the error [JSON-RPC error: %v] formatted with
    that member. The [result] member is not looked at: the outcome is the
    same whatever it holds and whatever [json.Unmarshal] would make of
    it, and the caller's result variable is left as it was. *)
Theorem callRPCMethod_error_member_first (raw : RawMessage) (r : string) (id : Z) :
  node (posted w) (request_for Endpoint method params) =
    Response (Envelope (mkRPCResponse raw (Some (Any r)) id)) ->
  callRPCMethod node Endpoint method params result w =
    (Done (result, Some (Errorf "JSON-RPC error: %v" (VAny r))),
     sent w (request_for Endpoint method params)).
Proof. apply callRPCMethod_node_error. Qed.

End Steps.

(** C5 at a node that refuses every method and sends no usable result:
    the JSON-RPC error is what comes back, for both result types. *)
Lemma callRPCMethod_error_member_first_witness :
  fst (callRPCMethod Mock.node_refusing Mock.endpoint "eth_blockNumber" [] ""%string Mock.fresh)
    = Done (""%string, Some (Errorf "JSON-RPC error: %v"
                               (VAny "map[code:-32601 message:method not found]"))) /\
  fst (callRPCMethod Mock.node_refusing Mock.endpoint "eth_getBlockByNumber"
         [VString "0x5"; VBool true] (mkBlock "" []) Mock.fresh)
    = Done (mkBlock "" [], Some (Errorf "JSON-RPC error: %v"
                                   (VAny "map[code:-32601 message:method not found]"))).
Proof.
  split.
  - rewrite (callRPCMethod_error_member_first Mock.node_refusing Mock.endpoint
               "eth_blockNumber" [] ""%string Mock.fresh
               (RawInvalid "unexpected end of JSON input")
               "map[code:-32601 message:method not found]" 1 eq_refl).
    reflexivity.
  - rewrite (callRPCMethod_error_member_first Mock.node_refusing Mock.endpoint
               "eth_getBlockByNumber" [VString "0x5"; VBool true] (mkBlock "" [])
               Mock.fresh (RawInvalid "unexpected end of JSON input")
               "map[code:-32601 message:method not found]" 1 eq_refl).
    reflexivity.
Defined.

(** ** The block-height query *)

Section Height.
Context (node : Node) (Endpoint : string) (w : World).

Lemma MemDB_GetCurrentBlock_failure e :
  height_failure (node (posted w) (request_for Endpoint "eth_blockNumber" [])) e ->
  fst (MemDB.GetCurrentBlock node Endpoint w) = Done (0, Some e).
Proof.
  unfold MemDB.GetCurrentBlock, bind at 1.
  intros [msg Hr | msg Hr | raw r id Hr | raw id target e' Hr Hd | raw id hex n e' Hr Hd Hp].
  - rewrite (callRPCMethod_transport _ _ _ _ _ _ _ Hr). reflexivity.
  - rewrite (callRPCMethod_malformed _ _ _ _ _ _ _ Hr). reflexivity.
  - rewrite (callRPCMethod_node_error _ _ _ _ _ _ _ _ _ Hr). reflexivity.
  - rewrite (callRPCMethod_result_rejected _ _ _ _ _ _ _ _ _ _ Hr Hd). reflexivity.
  - rewrite (callRPCMethod_result_decoded _ _ _ _ _ _ _ _ _ Hr Hd).
    unfold bind, lift. rewrite Hp. reflexivity.
Qed.

Lemma GlobalMap_GetCurrentBlock_eq :
  GlobalMap.GetCurrentBlock node Endpoint = MemDB.GetCurrentBlock node Endpoint.
Proof. reflexivity. Qed.

Lemma Main_GetCurrentBlock_failure_run e :
  height_failure (node (posted w) (request_for Endpoint "eth_blockNumber" [])) e ->
  exists w', Main.GetCurrentBlock node Endpoint w =
               (Done 0, printed w' "error: %v" [VError e]).
Proof.
  unfold Main.GetCurrentBlock. unfold bind at 1.
  intros [msg Hr | msg Hr | raw r id Hr | raw id target e' Hr Hd | raw id hex n e' Hr Hd Hp].
  - rewrite (callRPCMethod_transport _ _ _ _ _ _ _ Hr). eexists. reflexivity.
  - rewrite (callRPCMethod_malformed _ _ _ _ _ _ _ Hr). eexists. reflexivity.
  - rewrite (callRPCMethod_node_error _ _ _ _ _ _ _ _ _ Hr). eexists. reflexivity.
  - rewrite (callRPCMethod_result_rejected _ _ _ _ _ _ _ _ _ _ Hr Hd).
    eexists. reflexivity.
  - rewrite (callRPCMethod_result_decoded _ _ _ _ _ _ _ _ _ Hr Hd).
    unfold bind at 1, lift. rewrite Hp. eexists. reflexivity.
Qed.

Lemma Main_GetCurrentBlock_failure e :
  height_failure (node (posted w) (request_for Endpoint "eth_blockNumber" [])) e ->
  fst (Main.GetCurrentBlock node Endpoint w) = Done 0 /\
  exists out,
    stdout (snd (Main.GetCurrentBlock node Endpoint w)) =
      out ++ [mkPrint "error: %v" [VError e]].
Proof.
  intros Hfail. destruct (Main_GetCurrentBlock_failure_run e Hfail) as [w' ->].
  split; [reflexivity|]. exists (stdout w'). reflexivity.
Qed.

(** C2, as the code has it. In the two snapshots, whose [GetCurrentBlock]
    returns [(uint64, error)], every failure of the query (transport,
    undecodable body, error envelope, undecodable result, hex parse
    error) is returned to the caller as the error, with the value 0. In
    [main.go], whose [GetCurrentBlock] returns a [uint64] alone, the same
    failures make it print [error: %v] with the error and return 0. *)
Theorem GetCurrentBlock_failure_reporting (e : error) :
  height_failure (node (posted w) (request_for Endpoint "eth_blockNumber" [])) e ->
  fst (MemDB.GetCurrentBlock node Endpoint w) = Done (0, Some e) /\
  fst (GlobalMap.GetCurrentBlock node Endpoint w) = Done (0, Some e) /\
  fst (Main.GetCurrentBlock node Endpoint w) = Done 0 /\
  exists out,
    stdout (snd (Main.GetCurrentBlock node Endpoint w)) =
      out ++ [mkPrint "error: %v" [VError e]].
Proof.
  intros Hfail. split; [|split].
  - now apply MemDB_GetCurrentBlock_failure.
  - rewrite GlobalMap_GetCurrentBlock_eq. now apply MemDB_GetCurrentBlock_failure.
  - now apply Main_GetCurrentBlock_failure.
Qed.

End Height.

(** C2 at an unreachable node. *)
Lemma GetCurrentBlock_failure_reporting_witness :
  fst (MemDB.GetCurrentBlock Mock.node_down Mock.endpoint Mock.fresh)
    = Done (0, Some (LibError "http" "connection refused")) /\
  fst (Main.GetCurrentBlock Mock.node_down Mock.endpoint Mock.fresh) = Done 0.
Proof.
  pose proof (GetCurrentBlock_failure_reporting Mock.node_down Mock.endpoint Mock.fresh
                (LibError "http" "connection refused")
                (transport_failure _ "connection refused" eq_refl)) as (Hm & _ & Hmain & _).
  split; assumption.
Defined.

(** C2 as stated fails on [main.go]: with the node unreachable,
    [GetCurrentBlock] hands its caller the number 0, the very value it
    returns for a healthy node at height 0, and the error goes to standard
    output only. *)
Lemma Main_GetCurrentBlock_swallows_error :
  Main.GetCurrentBlock Mock.node_down Mock.endpoint Mock.fresh =
    (Done 0,
     mkWorld ∅
       [mkPrint "error: %v" [VError (LibError "http" "connection refused")]]
       [request_for Mock.endpoint "eth_blockNumber" []]) /\
  fst (Main.GetCurrentBlock Mock.node_down Mock.endpoint Mock.fresh) =
    fst (Main.GetCurrentBlock Mock.node_at_0 Mock.endpoint Mock.fresh).
Proof. split; reflexivity. Qed.

(** ** The registry *)

Section Registry.
Import MemoryStorage.

Lemma IsSubscriber_true address (memory : gmap string bool) :
  IsSubscriber address memory = true <-> memory !! address = Some true.
Proof.
  unfold IsSubscriber. destruct (memory !! address) as [[]|]; split; congruence.
Qed.

Lemma index_IsSubscriber address (memory : gmap string bool) :
  GlobalMap.index memory address = IsSubscriber address memory.
Proof. unfold GlobalMap.index, IsSubscriber. now destruct (memory !! address). Qed.

(** C7: subscribing reports success and makes the address a member, for
    every address; subscribing a member leaves the map as it is, and a
    second subscription changes nothing the first did not. This is
    [MemoryStorage.SetSubscriber] with [IsSubscriber] (main.go and the
    first snapshot), [SubscribeAddress] on top of it (in main.go for a
    non-empty address, the empty one being turned away before the
    registry is reached), and [SubscribeAddress] of the snapshot that
    keeps a bare map. *)
Theorem subscribe_member_idempotent (address : string) (w : World) :
  let memory := subscribers w in
  (snd (SetSubscriber address memory) = None /\
   IsSubscriber address (fst (SetSubscriber address memory)) = true) /\
  (IsSubscriber address memory = true ->
   fst (SetSubscriber address memory) = memory) /\
  fst (SetSubscriber address (fst (SetSubscriber address memory)))
    = fst (SetSubscriber address memory) /\
  (fst (MemDB.SubscribeAddress address w) = Done true /\
   subscribers (snd (MemDB.SubscribeAddress address w))
     = fst (SetSubscriber address memory)) /\
  (address <> ""%string ->
   Main.SubscribeAddress address w = MemDB.SubscribeAddress address w) /\
  (fst (GlobalMap.SubscribeAddress address w) = Done true /\
   GlobalMap.index (subscribers (snd (GlobalMap.SubscribeAddress address w))) address = true) /\
  (GlobalMap.index memory address = true ->
   subscribers (snd (GlobalMap.SubscribeAddress address w)) = memory) /\
  snd (GlobalMap.SubscribeAddress address (snd (GlobalMap.SubscribeAddress address w)))
    = snd (GlobalMap.SubscribeAddress address w).
Proof.
  intros memory. subst memory.
  assert (Hbare : GlobalMap.SubscribeAddress address w =
                    (Done true,
                     mkWorld (<[address := true]> (subscribers w)) (stdout w) (posted w))).
  { unfold GlobalMap.SubscribeAddress. exec_unfold. simpl.
    unfold GlobalMap.index. now rewrite lookup_insert_eq. }
  split; [|split; [|split; [|split; [|split; [|split; [|split]]]]]].
  - split; [reflexivity|].
    unfold SetSubscriber, IsSubscriber. simpl. now rewrite lookup_insert_eq.
  - intros Hin. apply IsSubscriber_true in Hin. simpl. now apply insert_id.
  - simpl. apply insert_insert_eq.
  - split; reflexivity.
  - intros Hne. apply String.eqb_neq in Hne.
    unfold Main.SubscribeAddress. now rewrite Hne.
  - rewrite Hbare. split; [reflexivity|]. simpl.
    unfold GlobalMap.index. now rewrite lookup_insert_eq.
  - intros Hin. rewrite index_IsSubscriber in Hin. apply IsSubscriber_true in Hin.
    rewrite Hbare. simpl. now apply insert_id.
  - rewrite Hbare. unfold GlobalMap.SubscribeAddress. exec_unfold. simpl.
    now rewrite insert_insert_eq.
Qed.

(** C8: in the snapshot that has [UnsubscribeAddress], unsubscribing
    after subscribing leaves the address a non-member, and the call
    itself returns [false], the value read back after the delete;
    unsubscribing an address that is not a member leaves every membership
    as it was, and leaves the map itself untouched when the address has
    no entry. *)
Theorem unsubscribe_after_subscribe (address : string) (w : World) :
  let w1 := snd (GlobalMap.SubscribeAddress address w) in
  (fst (GlobalMap.UnsubscribeAddress address w1) = Done false /\
   GlobalMap.index (subscribers (snd (GlobalMap.UnsubscribeAddress address w1))) address
     = false) /\
  (GlobalMap.index (subscribers w) address = false ->
   forall other,
     GlobalMap.index (subscribers (snd (GlobalMap.UnsubscribeAddress address w))) other
       = GlobalMap.index (subscribers w) other) /\
  (subscribers w !! address = None ->
   subscribers (snd (GlobalMap.UnsubscribeAddress address w)) = subscribers w).
Proof.
  intros w1. subst w1. repeat split.
  - unfold GlobalMap.UnsubscribeAddress, GlobalMap.SubscribeAddress. exec_unfold. simpl.
    unfold GlobalMap.index. now rewrite lookup_delete_eq.
  - unfold GlobalMap.UnsubscribeAddress, GlobalMap.SubscribeAddress. exec_unfold. simpl.
    unfold GlobalMap.index. now rewrite lookup_delete_eq.
  - intros Hout other. unfold GlobalMap.UnsubscribeAddress. exec_unfold. simpl.
    unfold GlobalMap.index in *.
    destruct (decide (address = other)) as [<-|Hne].
    + now rewrite lookup_delete_eq, Hout.
    + now rewrite lookup_delete_ne.
  - intros Hnone. unfold GlobalMap.UnsubscribeAddress. exec_unfold. simpl.
    now apply delete_id.
Qed.

End Registry.

(** C7 at an address that is already subscribed. *)
Lemma subscribe_member_idempotent_witness :
  fst (MemoryStorage.SetSubscriber Mock.X (subscribers (Mock.subscribed Mock.X)))
    = subscribers (Mock.subscribed Mock.X) /\
  Main.SubscribeAddress Mock.X (Mock.subscribed Mock.X)
    = MemDB.SubscribeAddress Mock.X (Mock.subscribed Mock.X) /\
  subscribers (snd (GlobalMap.SubscribeAddress Mock.X (Mock.subscribed Mock.X)))
    = subscribers (Mock.subscribed Mock.X).
Proof.
  pose proof (subscribe_member_idempotent Mock.X (Mock.subscribed Mock.X))
    as (_ & Hmem & _ & _ & Hmain & _ & Hmap & _).
  split; [|split].
  - apply Hmem. vm_compute. reflexivity.
  - apply Hmain. discriminate.
  - apply Hmap. vm_compute. reflexivity.
Defined.

(** C8: unsubscribing [Y] while only [X] is subscribed changes no membership. *)
Lemma unsubscribe_after_subscribe_witness :
  GlobalMap.index
    (subscribers (snd (GlobalMap.UnsubscribeAddress Mock.Y (Mock.subscribed Mock.X)))) Mock.X
  = GlobalMap.index (subscribers (Mock.subscribed Mock.X)) Mock.X /\
  subscribers (snd (GlobalMap.UnsubscribeAddress Mock.Y (Mock.subscribed Mock.X)))
  = subscribers (Mock.subscribed Mock.X).
Proof.
  pose proof (unsubscribe_after_subscribe Mock.Y (Mock.subscribed Mock.X))
    as (_ & Hset & Hmap).
  split; [apply Hset | apply Hmap]; vm_compute; reflexivity.
Defined.

(** ** Gating of the transaction query *)

Section Gating.
Import MemoryStorage.
Context (node : Node) (Endpoint : string) (w : World).

(** C3, as the code has it. For an address that is not subscribed, the
    transaction query posts nothing: in the snapshot with
    [MemoryStorage] and error results it returns the error
    [Address: %v is not subscribed] and leaves the world as it is; in
    [main.go], for a non-empty address, it prints that message and
    returns the empty list. *)
Theorem GetTransactions_unsubscribed_no_post (address : string) :
  IsSubscriber address (subscribers w) = false ->
  MemDB.GetTransactions node Endpoint address w =
    (Done ([], Some (Errorf "Address: %v is not subscribed" (VString address))), w) /\
  (address <> ""%string ->
   Main.GetTransactions node Endpoint address w =
     (Done [], printed w "Address: %v is not subscribed\n" [VString address])).
Proof.
  intros Hout. split.
  - unfold MemDB.GetTransactions. exec_unfold. simpl. now rewrite Hout.
  - intros Hne. unfold Main.GetTransactions.
    apply String.eqb_neq in Hne. rewrite Hne.
    exec_unfold. simpl. now rewrite Hout.
Qed.

(** C6, as the code has it. In [main.go], with the empty address,
    [SubscribeAddress] returns [false] and [GetTransactions] returns the
    empty list, each after printing [You need to define an address]; the
    subscriber map is not written and nothing is posted. The snapshots
    make no such check in these operations: there [SubscribeAddress]
    stores the empty address and returns [true], and
    [UnsubscribeAddress] deletes it and returns [false]. *)
Theorem empty_address_handling :
  Main.SubscribeAddress "" w =
    (Done false, printed w "You need to define an address\n" []) /\
  Main.GetTransactions node Endpoint "" w =
    (Done [], printed w "You need to define an address\n" []) /\
  MemDB.SubscribeAddress "" w =
    (Done true, mkWorld (<[""%string := true]> (subscribers w)) (stdout w) (posted w)) /\
  GlobalMap.SubscribeAddress "" w =
    (Done true, mkWorld (<[""%string := true]> (subscribers w)) (stdout w) (posted w)) /\
  GlobalMap.UnsubscribeAddress "" w =
    (Done false, mkWorld (delete ""%string (subscribers w)) (stdout w) (posted w)).
Proof.
  repeat split.
  - unfold GlobalMap.SubscribeAddress. exec_unfold. simpl.
    unfold GlobalMap.index. now rewrite lookup_insert_eq.
  - unfold GlobalMap.UnsubscribeAddress. exec_unfold. simpl.
    unfold GlobalMap.index. now rewrite lookup_delete_eq.
Qed.

End Gating.

(** C3 at [Y], with only [X] subscribed. *)
Lemma GetTransactions_unsubscribed_no_post_witness :
  MemDB.GetTransactions Mock.node_at_5 Mock.endpoint Mock.Y (Mock.subscribed Mock.X) =
    (Done ([], Some (Errorf "Address: %v is not subscribed" (VString Mock.Y))),
     Mock.subscribed Mock.X).
Proof.
  apply (proj1 (GetTransactions_unsubscribed_no_post Mock.node_at_5 Mock.endpoint
                  (Mock.subscribed Mock.X) Mock.Y eq_refl)).
Defined.

(** C3 as stated fails. The snapshot with the bare map does not look at the
    subscriptions in [GetTransactions]: with nobody subscribed it posts both
    requests and returns the transactions of [X]. In [main.go] the caller
    of an unsubscribed query gets the empty list, as for a subscribed
    address that no transaction of the block touches. *)
Lemma GetTransactions_unsubscribed_not_refused :
  GlobalMap.index (subscribers Mock.fresh) Mock.X = false /\
  GlobalMap.GetTransactions Mock.node_at_5 Mock.endpoint Mock.X Mock.fresh =
    (Done ([Mock.tx1; Mock.tx2], None),
     mkWorld ∅ []
       [request_for Mock.endpoint "eth_blockNumber" [];
        request_for Mock.endpoint "eth_getBlockByNumber" [VString "0x5"; VBool true]]) /\
  fst (Main.GetTransactions Mock.node_at_5 Mock.endpoint Mock.U Mock.fresh) = Done [] /\
  fst (Main.GetTransactions Mock.node_at_5 Mock.endpoint Mock.U (Mock.subscribed Mock.U))
    = Done [].
Proof. repeat split; vm_compute; reflexivity. Qed.

(** C6 as stated fails: in the snapshot with the bare map, subscribing the
    empty address succeeds and stores it; in the snapshot with
    [MemoryStorage] likewise. *)
Lemma SubscribeAddress_empty_stored :
  GlobalMap.SubscribeAddress "" Mock.fresh =
    (Done true, mkWorld (<[""%string := true]> ∅) [] []) /\
  GlobalMap.index
    (subscribers (snd (GlobalMap.SubscribeAddress "" Mock.fresh))) "" = true /\
  MemDB.SubscribeAddress "" Mock.fresh =
    (Done true, mkWorld (<[""%string := true]> ∅) [] []).
Proof. repeat split; vm_compute; reflexivity. Qed.

(** ** Short height strings *)

Section ShortHeight.
Context (node : Node) (Endpoint : string) (w : World).

(** C10: on a string of fewer than two bytes [ParseHexUint64] panics at
    its slice expression instead of returning an error; so when the node
    answers [eth_blockNumber] with such a string, [GetCurrentBlock]
    panics too, in [main.go] and in both snapshots. *)
Theorem short_height_string_panics (hexStr : string) (id : Z) :
  (String.length hexStr < 2)%nat ->
  ParseHexUint64 hexStr = Panic (SliceBoundsOutOfRange 2 (String.length hexStr)) /\
  (node (posted w) (request_for Endpoint "eth_blockNumber" []) =
     Response (Envelope (mkRPCResponse (RawString hexStr) None id)) ->
   fst (Main.GetCurrentBlock node Endpoint w)
     = Panic (SliceBoundsOutOfRange 2 (String.length hexStr)) /\
   fst (MemDB.GetCurrentBlock node Endpoint w)
     = Panic (SliceBoundsOutOfRange 2 (String.length hexStr)) /\
   fst (GlobalMap.GetCurrentBlock node Endpoint w)
     = Panic (SliceBoundsOutOfRange 2 (String.length hexStr))).
Proof.
  intros Hlen. pose proof (ParseHexUint64_short hexStr Hlen) as Hp.
  split; [assumption|]. intros Hr.
  assert (Hcall : callRPCMethod node Endpoint "eth_blockNumber" [] ""%string w =
                    (Done (hexStr, None),
                     sent w (request_for Endpoint "eth_blockNumber" []))).
  { apply (callRPCMethod_result_decoded _ _ _ _ _ _ _ _ _ Hr). reflexivity. }
  repeat split.
  - unfold Main.GetCurrentBlock. unfold bind at 1. rewrite Hcall.
    unfold bind at 1, lift. now rewrite Hp.
  - unfold MemDB.GetCurrentBlock. unfold bind at 1. rewrite Hcall.
    unfold bind at 1, lift. now rewrite Hp.
  - unfold GlobalMap.GetCurrentBlock. unfold bind at 1. rewrite Hcall.
    unfold bind at 1, lift. now rewrite Hp.
Qed.

End ShortHeight.

(** C10 at the empty string and at a node that reports the height ["0"]. *)
Lemma short_height_string_panics_witness :
  ParseHexUint64 "" = Panic (SliceBoundsOutOfRange 2 0) /\
  fst (Main.GetCurrentBlock (Mock.node_height "0") Mock.endpoint Mock.fresh)
    = Panic (SliceBoundsOutOfRange 2 1).
Proof.
  split.
  - apply (proj1 (short_height_string_panics Mock.node_down Mock.endpoint Mock.fresh
                    "" 1 ltac:(simpl; lia))).
  - apply (proj2 (short_height_string_panics (Mock.node_height "0") Mock.endpoint
                    Mock.fresh "0" 1 ltac:(simpl; lia)) eq_refl).
Defined.

(** ** The transaction query *)

Section Query.
Import MemoryStorage.
Context (node : Node) (Endpoint : string).

Lemma select_transactions_from address txs : forall acc,
  fold_left
    (fun transactions transaction =>
       if String.eqb (From transaction) address || String.eqb (To transaction) address
       then transactions ++ [transaction]
       else transactions) txs acc
  = acc ++ transactions_touching address txs.
Proof.
  induction txs as [|t txs IH]; intros acc; simpl.
  - now rewrite app_nil_r.
  - rewrite IH. unfold touches.
    destruct (String.eqb (From t) address || String.eqb (To t) address); simpl;
      [now rewrite <- app_assoc | reflexivity].
Qed.

Lemma select_transactions_touching address block :
  select_transactions address block = transactions_touching address (Transactions block).
Proof. unfold select_transactions. now rewrite select_transactions_from. Qed.

(** [callRPCMethod] always returns, having posted its one request. *)
Lemma callRPCMethod_total {T} `{Unmarshal T} method params (result : T) w :
  exists r w',
    callRPCMethod node Endpoint method params result w = (Done r, w') /\
    posted w' = posted w ++ [request_for Endpoint method params].
Proof.
  exec_unfold. simpl.
  destruct (node _ _) as [msg|[msg|[raw [[r]|] id]]]; simpl; eauto.
  destruct (unmarshal raw result) as [target [e|]]; simpl; eauto.
Qed.

Lemma Main_GetCurrentBlock_posted w :
  posted (snd (Main.GetCurrentBlock node Endpoint w)) =
    posted w ++ [request_for Endpoint "eth_blockNumber" []].
Proof.
  unfold Main.GetCurrentBlock. unfold bind at 1.
  destruct (callRPCMethod_total "eth_blockNumber" [] ""%string w)
    as ([hex [e|]] & w' & -> & Hp); [assumption|].
  unfold bind at 1, lift.
  destruct (ParseHexUint64 hex) as [[n [e|]]|p]; assumption.
Qed.

Lemma MemDB_GetCurrentBlock_posted w :
  posted (snd (MemDB.GetCurrentBlock node Endpoint w)) =
    posted w ++ [request_for Endpoint "eth_blockNumber" []].
Proof.
  unfold MemDB.GetCurrentBlock. unfold bind at 1.
  destruct (callRPCMethod_total "eth_blockNumber" [] ""%string w)
    as ([hex [e|]] & w' & -> & Hp); [assumption|].
  unfold bind at 1, lift.
  destruct (ParseHexUint64 hex) as [[n [e|]]|p]; assumption.
Qed.

Lemma Main_GetTransactions_run address w :
  String.eqb address "" = false ->
  IsSubscriber address (subscribers w) = true ->
  Main.GetTransactions node Endpoint address w =
    match Main.GetCurrentBlock node Endpoint w with
    | (Panic p, w1) => (Panic p, w1)
    | (Done blockNumber, w1) =>
        if blockNumber =? 0
        then (Done [], printed w1 "blockNumber is %v\n" [VUint 0])
        else
          match callRPCMethod node Endpoint "eth_getBlockByNumber"
                  [VString (Sprintf_0x_x blockNumber); VBool true]
                  (mkBlock "" []) w1 with
          | (Panic p, w2) => (Panic p, w2)
          | (Done (_, Some e), w2) => (Done [], printed w2 "error: %v" [VError e])
          | (Done (block, None), w2) => (Done (select_transactions address block), w2)
          end
    end.
Proof.
  intros He Hsub. unfold Main.GetTransactions. rewrite He.
  unfold bind at 1, get_subscribers. rewrite Hsub. cbn [negb].
  unfold bind at 1.
  destruct (Main.GetCurrentBlock node Endpoint w) as [[h|p] w1]; [|reflexivity].
  destruct (h =? 0); [reflexivity|].
  unfold bind at 1. simpl ParseToAnySlice.
  destruct (callRPCMethod _ _ _ _ _ w1) as [[[block [e|]]|p] w2]; reflexivity.
Qed.

Lemma MemDB_GetTransactions_run address w :
  IsSubscriber address (subscribers w) = true ->
  MemDB.GetTransactions node Endpoint address w =
    match MemDB.GetCurrentBlock node Endpoint w with
    | (Panic p, w1) => (Panic p, w1)
    | (Done (_, Some e), w1) => (Done ([], Some e), w1)
    | (Done (blockNumber, None), w1) =>
        match callRPCMethod node Endpoint "eth_getBlockByNumber"
                [VString (Sprintf_0x_x blockNumber); VBool true]
                (mkBlock "" []) w1 with
        | (Panic p, w2) => (Panic p, w2)
        | (Done (_, Some e), w2) => (Done ([], Some e), w2)
        | (Done (block, None), w2) =>
            (Done (select_transactions address block, None), w2)
        end
    end.
Proof.
  intros Hsub. unfold MemDB.GetTransactions.
  unfold bind at 1, get_subscribers. rewrite Hsub. cbn [negb].
  unfold bind at 1.
  destruct (MemDB.GetCurrentBlock node Endpoint w) as [[[h [e|]]|p] w1];
    try reflexivity.
  unfold bind at 1. simpl ParseToAnySlice.
  destruct (callRPCMethod _ _ _ _ _ w1) as [[[block [e|]]|p] w2]; reflexivity.
Qed.

Lemma GlobalMap_GetTransactions_run address w :
  GlobalMap.GetTransactions node Endpoint address w =
    match GlobalMap.GetCurrentBlock node Endpoint w with
    | (Panic p, w1) => (Panic p, w1)
    | (Done (_, Some e), w1) => (Done ([], Some e), w1)
    | (Done (blockNumber, None), w1) =>
        match callRPCMethod node Endpoint "eth_getBlockByNumber"
                [VString (Sprintf_0x_x blockNumber); VBool true]
                (mkBlock "" []) w1 with
        | (Panic p, w2) => (Panic p, w2)
        | (Done (_, Some e), w2) => (Done ([], Some e), w2)
        | (Done (block, None), w2) =>
            (Done (select_transactions address block, None), w2)
        end
    end.
Proof.
  unfold GlobalMap.GetTransactions. unfold bind at 1.
  destruct (GlobalMap.GetCurrentBlock node Endpoint w) as [[[h [e|]]|p] w1];
    try reflexivity.
  unfold bind at 1. simpl ParseToAnySlice.
  destruct (callRPCMethod _ _ _ _ _ w1) as [[[block [e|]]|p] w2]; reflexivity.
Qed.

End Query.



(** * Further properties *)

(** ** Strings *)

Lemma string_app_cons (c : ascii) (s t : string) :
  String c s +:+ t = String c (s +:+ t).
Proof. reflexivity. Qed.

Lemma string_app_nil_r (s : string) : s +:+ "" = s.
Proof.
  induction s as [|c s IH]; [reflexivity|]. now rewrite string_app_cons, IH.
Qed.

Lemma string_app_assoc (s1 s2 s3 : string) : (s1 +:+ s2) +:+ s3 = s1 +:+ (s2 +:+ s3).
Proof.
  induction s1 as [|c s1 IH]; [reflexivity|]. now rewrite !string_app_cons, IH.
Qed.

(** ** Hex rendering and parsing *)

Section HexRoundTrip.
Import strconv HexFacts.

Lemma hex_char_digit d :
  0 <= d < 16 ->
  is_hex_digit (hex_char d) = true /\ hex_digit_value (hex_char d) = d.
Proof.
  intros Hd.
  assert (Hcases : d = 0 \/ d = 1 \/ d = 2 \/ d = 3 \/ d = 4 \/ d = 5 \/ d = 6 \/ d = 7 \/
                   d = 8 \/ d = 9 \/ d = 10 \/ d = 11 \/ d = 12 \/ d = 13 \/ d = 14 \/
                   d = 15) by lia.
  repeat destruct Hcases as [-> | Hcases]; try subst d; split; reflexivity.
Qed.

Lemma hex_digits_acc fuel : forall n acc,
  hex_digits fuel n acc = hex_digits fuel n "" +:+ acc.
Proof.
  induction fuel as [|fuel IH]; intros n acc; simpl; [reflexivity|].
  destruct (n / 16 =? 0); [reflexivity|].
  rewrite (IH (n / 16) (String (hex_char (n mod 16)) acc)).
  rewrite (IH (n / 16) (String (hex_char (n mod 16)) "")).
  now rewrite string_app_assoc.
Qed.

Lemma all_hex_app s1 s2 : all_hex (s1 +:+ s2) = all_hex s1 && all_hex s2.
Proof.
  induction s1 as [|c s1 IH]; [reflexivity|].
  rewrite string_app_cons. simpl. now rewrite IH, andb_assoc.
Qed.

Lemma hex_value_from_app s1 s2 : forall acc,
  hex_value_from acc (s1 +:+ s2) = hex_value_from (hex_value_from acc s1) s2.
Proof.
  induction s1 as [|c s1 IH]; intros acc; [reflexivity|].
  rewrite string_app_cons. simpl. apply IH.
Qed.

Lemma hex_digits_value fuel : forall n,
  0 <= n < 16 ^ Z.of_nat fuel ->
  all_hex (hex_digits fuel n "") = true /\
  hex_value (hex_digits fuel n "") = n /\
  (fuel <> 0%nat -> hex_digits fuel n "" <> ""%string).
Proof.
  unfold hex_value.
  induction fuel as [|fuel IH]; intros n Hn.
  - simpl in *. repeat split; [lia|congruence].
  - rewrite Nat2Z.inj_succ, Z.pow_succ_r in Hn by lia.
    assert (Hd : 0 <= n mod 16 < 16) by (apply Z.mod_pos_bound; lia).
    destruct (hex_char_digit _ Hd) as [Hhex Hval].
    assert (Hdiv : n = 16 * (n / 16) + n mod 16) by (apply Z.div_mod; lia).
    simpl. destruct (Z.eqb_spec (n / 16) 0) as [Hz|Hz].
    + simpl. rewrite Hhex, Hval. repeat split; [lia|discriminate].
    + rewrite hex_digits_acc.
      assert (Hq : 0 <= n / 16 < 16 ^ Z.of_nat fuel).
      { split; [apply Z.div_pos; lia|apply Z.div_lt_upper_bound; lia]. }
      destruct (IH (n / 16) Hq) as (Hall & Hv & _).
      rewrite all_hex_app, hex_value_from_app, Hall, Hv. simpl.
      rewrite Hhex, Hval. repeat split; [lia|].
      intros _ Hempty. destruct (hex_digits fuel (n / 16) ""); discriminate Hempty.
Qed.

Lemma ParseHexUint64_hex_digits c1 c2 digits :
  digits <> ""%string -> all_hex digits = true -> hex_value digits < 2 ^ 64 ->
  ParseHexUint64 (String c1 (String c2 digits)) = Done (hex_value digits, None).
Proof.
  intros Hne Hall Hfit. destruct digits as [|c rest]; [congruence|].
  rewrite ParseHexUint64_digits, digits_loop_all_hex by (assumption || lia).
  fold (hex_value (String c rest)).
  destruct (Z.ltb_spec (hex_value (String c rest)) (2 ^ 64)); [reflexivity|lia].
Qed.

(** X1: what [fmt.Sprintf("0x%x", n)] writes for a [uint64] [n],
    [ParseHexUint64] reads back as [n], without error. So the height put
    into the block request is the height that was parsed. *)
Theorem ParseHexUint64_Sprintf_round_trip (n : Z) :
  0 <= n < 2 ^ 64 ->
  ParseHexUint64 (Sprintf_0x_x n) = Done (n, None).
Proof.
  intros Hn. unfold Sprintf_0x_x.
  destruct (hex_digits_value 16 n) as (Hall & Hv & Hne).
  { change (16 ^ Z.of_nat 16) with (2 ^ 64). exact Hn. }
  change ("0x" +:+ hex_digits 16 n "")
    with (String "0" (String "x" (hex_digits 16 n ""))).
  rewrite ParseHexUint64_hex_digits; [now rewrite Hv| now apply Hne | exact Hall | lia].
Qed.

End HexRoundTrip.

Lemma ParseHexUint64_Sprintf_round_trip_witness :
  ParseHexUint64 (Sprintf_0x_x 19000000) = Done (19000000, None).
Proof. apply ParseHexUint64_Sprintf_round_trip. lia. Defined.

(** ** toJSON and ParseToAnySlice *)

Section Params.
Variable Marshal : value -> string.

Lemma toJSON_loop_concat len (ps : list value) : forall i builder,
  i + Z.of_nat (length ps) = len ->
  toJSON_loop Marshal len i ps builder =
    builder +:+ String.concat "," (map Marshal ps).
Proof.
  induction ps as [|param rest IH]; intros i builder Hlen.
  - simpl. now rewrite string_app_nil_r.
  - cbn [toJSON_loop]. destruct rest as [|next rest'].
    + simpl in Hlen.
      destruct (Z.ltb_spec i (len - 1)) as [?|_]; [lia|]. reflexivity.
    + assert (Hi : i < len - 1) by (simpl length in Hlen; lia).
      destruct (Z.ltb_spec i (len - 1)) as [_|?]; [|lia].
      rewrite IH by (simpl length in *; lia).
      cbn [map String.concat]. now rewrite !string_app_assoc.
Qed.

(** X2: [toJSON] writes the marshalled parameters between brackets,
    separated by single commas, with no comma after the last; for no
    parameters (a nil slice as well) it writes [[]]. *)
Theorem toJSON_is_comma_separated (params : list value) :
  toJSON Marshal params = "[" +:+ String.concat "," (map Marshal params) +:+ "]".
Proof.
  unfold toJSON. destruct params as [|param rest]; [reflexivity|].
  destruct (Z.eqb_spec (Z.of_nat (length (param :: rest))) 0) as [H0|_];
    [simpl length in H0; lia|].
  rewrite toJSON_loop_concat by lia. now rewrite string_app_assoc.
Qed.

End Params.

Lemma ParseToAnySlice_from (params : list value) : forall allParams,
  fold_left (fun allParams param => allParams ++ [param]) params allParams
    = allParams ++ params.
Proof.
  induction params as [|param rest IH]; intros allParams; simpl.
  - now rewrite app_nil_r.
  - rewrite IH. now rewrite <- app_assoc.
Qed.

(** X3: [ParseToAnySlice] returns its arguments, all of them and in the
    order given. *)
Theorem ParseToAnySlice_keeps_arguments (params : list value) :
  ParseToAnySlice params = params.
Proof. unfold ParseToAnySlice. now rewrite ParseToAnySlice_from. Qed.

(** ** The registry, one address at a time *)

Section RegistryFrame.
Import MemoryStorage.

Lemma IsSubscriber_insert_ne a b (memory : gmap string bool) :
  a <> b -> IsSubscriber b (<[a := true]> memory) = IsSubscriber b memory.
Proof. intros Hne. unfold IsSubscriber. now rewrite lookup_insert_ne. Qed.

Lemma IsSubscriber_delete_ne a b (memory : gmap string bool) :
  a <> b -> IsSubscriber b (delete a memory) = IsSubscriber b memory.
Proof. intros Hne. unfold IsSubscriber. now rewrite lookup_delete_ne. Qed.

(** X4: subscribing or unsubscribing an address changes the membership
    of no other address: [SetSubscriber] and the three [SubscribeAddress],
    and [UnsubscribeAddress]. *)
Theorem registry_touches_one_address (a b : string) (w : World) :
  a <> b ->
  IsSubscriber b (fst (SetSubscriber a (subscribers w))) = IsSubscriber b (subscribers w) /\
  IsSubscriber b (subscribers (snd (Main.SubscribeAddress a w)))
    = IsSubscriber b (subscribers w) /\
  IsSubscriber b (subscribers (snd (MemDB.SubscribeAddress a w)))
    = IsSubscriber b (subscribers w) /\
  GlobalMap.index (subscribers (snd (GlobalMap.SubscribeAddress a w))) b
    = GlobalMap.index (subscribers w) b /\
  GlobalMap.index (subscribers (snd (GlobalMap.UnsubscribeAddress a w))) b
    = GlobalMap.index (subscribers w) b.
Proof.
  intros Hne. split; [|split; [|split; [|split]]].
  - now apply IsSubscriber_insert_ne.
  - unfold Main.SubscribeAddress. destruct (String.eqb a ""); [reflexivity|].
    now apply IsSubscriber_insert_ne.
  - now apply IsSubscriber_insert_ne.
  - rewrite !index_IsSubscriber. now apply IsSubscriber_insert_ne.
  - rewrite !index_IsSubscriber. now apply IsSubscriber_delete_ne.
Qed.

End RegistryFrame.

Lemma registry_touches_one_address_witness :
  GlobalMap.index
    (subscribers (snd (GlobalMap.UnsubscribeAddress Mock.Y (Mock.subscribed Mock.X)))) Mock.X
  = GlobalMap.index (subscribers (Mock.subscribed Mock.X)) Mock.X.
Proof.
  apply (registry_touches_one_address Mock.Y Mock.X (Mock.subscribed Mock.X)).
  discriminate.
Defined.

(** ** The block-height query, when it succeeds *)

Section HeightSuccess.
Context (node : Node) (Endpoint : string) (w : World).

Lemma callRPCMethod_height_string hex id :
  node (posted w) (request_for Endpoint "eth_blockNumber" []) =
    Response (Envelope (mkRPCResponse (RawString hex) None id)) ->
  callRPCMethod node Endpoint "eth_blockNumber" [] ""%string w =
    (Done (hex, None), sent w (request_for Endpoint "eth_blockNumber" [])).
Proof.
  intros Hr. apply (callRPCMethod_result_decoded _ _ _ _ _ _ _ _ _ Hr). reflexivity.
Qed.

Lemma MemDB_GetCurrentBlock_parsed hex id h :
  node (posted w) (request_for Endpoint "eth_blockNumber" []) =
    Response (Envelope (mkRPCResponse (RawString hex) None id)) ->
  ParseHexUint64 hex = Done (h, None) ->
  MemDB.GetCurrentBlock node Endpoint w =
    (Done (h, None), sent w (request_for Endpoint "eth_blockNumber" [])).
Proof.
  intros Hr Hp. unfold MemDB.GetCurrentBlock. unfold bind at 1.
  rewrite (callRPCMethod_height_string hex id Hr).
  unfold bind at 1, lift. rewrite Hp. reflexivity.
Qed.

Lemma Main_GetCurrentBlock_parsed hex id h :
  node (posted w) (request_for Endpoint "eth_blockNumber" []) =
    Response (Envelope (mkRPCResponse (RawString hex) None id)) ->
  ParseHexUint64 hex = Done (h, None) ->
  Main.GetCurrentBlock node Endpoint w =
    (Done h, sent w (request_for Endpoint "eth_blockNumber" [])).
Proof.
  intros Hr Hp. unfold Main.GetCurrentBlock. unfold bind at 1.
  rewrite (callRPCMethod_height_string hex id Hr).
  unfold bind at 1, lift. rewrite Hp. reflexivity.
Qed.

(** X5: when the node answers [eth_blockNumber] with a string of two
    bytes followed by a non-empty run of hex digits whose value fits 64
    bits (such as [0x] and digits), [GetCurrentBlock] returns that value,
    with a nil error in the snapshots, after posting that one request and
    printing nothing. *)
Theorem GetCurrentBlock_returns_hex_value (c1 c2 : ascii) (digits : string) (id : Z) :
  node (posted w) (request_for Endpoint "eth_blockNumber" []) =
    Response (Envelope (mkRPCResponse (RawString (String c1 (String c2 digits))) None id)) ->
  digits <> ""%string -> all_hex digits = true -> hex_value digits < 2 ^ 64 ->
  Main.GetCurrentBlock node Endpoint w =
    (Done (hex_value digits), sent w (request_for Endpoint "eth_blockNumber" [])) /\
  MemDB.GetCurrentBlock node Endpoint w =
    (Done (hex_value digits, None), sent w (request_for Endpoint "eth_blockNumber" [])) /\
  GlobalMap.GetCurrentBlock node Endpoint w =
    (Done (hex_value digits, None), sent w (request_for Endpoint "eth_blockNumber" [])).
Proof.
  intros Hr Hne Hall Hfit.
  pose proof (ParseHexUint64_hex_digits c1 c2 digits Hne Hall Hfit) as Hp.
  split; [|split].
  - apply (Main_GetCurrentBlock_parsed _ id _ Hr Hp).
  - apply (MemDB_GetCurrentBlock_parsed _ id _ Hr Hp).
  - rewrite GlobalMap_GetCurrentBlock_eq. apply (MemDB_GetCurrentBlock_parsed _ id _ Hr Hp).
Qed.

(** X6: when the [result] member of the answer to [eth_blockNumber] is
    the JSON [null], [callRPCMethod] reports no error and leaves the
    string empty, and [GetCurrentBlock] panics on it in the slice
    expression of [ParseHexUint64]. *)
Theorem GetCurrentBlock_null_height_panics (id : Z) :
  node (posted w) (request_for Endpoint "eth_blockNumber" []) =
    Response (Envelope (mkRPCResponse RawNull None id)) ->
  callRPCMethod node Endpoint "eth_blockNumber" [] ""%string w =
    (Done (""%string, None), sent w (request_for Endpoint "eth_blockNumber" [])) /\
  fst (Main.GetCurrentBlock node Endpoint w) = Panic (SliceBoundsOutOfRange 2 0) /\
  fst (MemDB.GetCurrentBlock node Endpoint w) = Panic (SliceBoundsOutOfRange 2 0) /\
  fst (GlobalMap.GetCurrentBlock node Endpoint w) = Panic (SliceBoundsOutOfRange 2 0).
Proof.
  intros Hr.
  assert (Hcall : callRPCMethod node Endpoint "eth_blockNumber" [] ""%string w =
                    (Done (""%string, None),
                     sent w (request_for Endpoint "eth_blockNumber" []))).
  { apply (callRPCMethod_result_decoded _ _ _ _ _ _ _ _ _ Hr). reflexivity. }
  split; [exact Hcall|]. split; [|split].
  - unfold Main.GetCurrentBlock. unfold bind at 1. rewrite Hcall. reflexivity.
  - unfold MemDB.GetCurrentBlock. unfold bind at 1. rewrite Hcall. reflexivity.
  - unfold GlobalMap.GetCurrentBlock. unfold bind at 1. rewrite Hcall. reflexivity.
Qed.

End HeightSuccess.

Lemma GetCurrentBlock_returns_hex_value_witness :
  fst (MemDB.GetCurrentBlock Mock.node_at_5 Mock.endpoint Mock.fresh) = Done (5, None).
Proof.
  rewrite (proj1 (proj2 (GetCurrentBlock_returns_hex_value Mock.node_at_5 Mock.endpoint
                           Mock.fresh "0" "x" "5" 1 eq_refl ltac:(discriminate)
                           eq_refl ltac:(vm_compute; reflexivity)))).
  reflexivity.
Defined.

Lemma GetCurrentBlock_null_height_panics_witness :
  fst (Main.GetCurrentBlock
         (fun _ _ => Response (Envelope (mkRPCResponse RawNull None 1)))
         Mock.endpoint Mock.fresh) = Panic (SliceBoundsOutOfRange 2 0).
Proof.
  apply (GetCurrentBlock_null_height_panics
           (fun _ _ => Response (Envelope (mkRPCResponse RawNull None 1)))
           Mock.endpoint Mock.fresh 1 eq_refl).
Defined.

(** ** Requests posted by the queries *)

Section Traces.
Import MemoryStorage.
Context (node : Node) (Endpoint : string).

(** X7: one RPC call is one request. On every path [callRPCMethod]
    returns (it never panics), having posted exactly the request for its
    method and parameters to [Endpoint] with content type
    [application/json]; and every run of [GetCurrentBlock], returning or
    panicking, has posted exactly the [eth_blockNumber] request. Nothing
    is retried. *)
Theorem one_request_per_call (w : World) :
  (forall T (U : Unmarshal T) method ps (result : T),
     exists r,
       fst (callRPCMethod node Endpoint method ps result w) = Done r /\
       posted (snd (callRPCMethod node Endpoint method ps result w)) =
         posted w ++ [mkRequest Endpoint "application/json" method ps]) /\
  posted (snd (Main.GetCurrentBlock node Endpoint w)) =
    posted w ++ [request_for Endpoint "eth_blockNumber" []] /\
  posted (snd (MemDB.GetCurrentBlock node Endpoint w)) =
    posted w ++ [request_for Endpoint "eth_blockNumber" []] /\
  posted (snd (GlobalMap.GetCurrentBlock node Endpoint w)) =
    posted w ++ [request_for Endpoint "eth_blockNumber" []].
Proof.
  split; [|split; [|split]].
  - intros T U method ps result.
    destruct (callRPCMethod_total node Endpoint method ps result w) as (r & w' & Hrun & Hp).
    exists r. rewrite Hrun. split; [reflexivity|exact Hp].
  - apply Main_GetCurrentBlock_posted.
  - apply MemDB_GetCurrentBlock_posted.
  - rewrite GlobalMap_GetCurrentBlock_eq. apply MemDB_GetCurrentBlock_posted.
Qed.

Lemma Main_GetTransactions_trace address w :
  exists reqs,
    posted (snd (Main.GetTransactions node Endpoint address w)) = posted w ++ reqs /\
    query_trace Endpoint reqs.
Proof.
  unfold query_trace.
  destruct (String.eqb address "") eqn:He.
  { exists []. unfold Main.GetTransactions. rewrite He. simpl.
    rewrite app_nil_r. auto. }
  destruct (IsSubscriber address (subscribers w)) eqn:Hsub.
  2: { exists []. unfold Main.GetTransactions. rewrite He. exec_unfold. simpl.
       rewrite Hsub. simpl. rewrite app_nil_r. auto. }
  rewrite (Main_GetTransactions_run node Endpoint address w He Hsub).
  pose proof (Main_GetCurrentBlock_posted node Endpoint w) as Hp1.
  destruct (Main.GetCurrentBlock node Endpoint w) as [[h|p] w1]; simpl in Hp1.
  2: { eexists. split; [exact Hp1|]. auto. }
  destruct (h =? 0).
  { eexists. split; [simpl; exact Hp1|]. auto. }
  destruct (callRPCMethod_total node Endpoint "eth_getBlockByNumber"
              [VString (Sprintf_0x_x h); VBool true] (mkBlock "" []) w1)
    as ([block [e|]] & w2 & -> & Hp2);
    (eexists; split; [simpl; rewrite Hp2, Hp1, <- app_assoc; reflexivity|];
     right; right; exists h; reflexivity).
Qed.

Lemma MemDB_GetTransactions_trace address w :
  exists reqs,
    posted (snd (MemDB.GetTransactions node Endpoint address w)) = posted w ++ reqs /\
    query_trace Endpoint reqs.
Proof.
  unfold query_trace.
  destruct (IsSubscriber address (subscribers w)) eqn:Hsub.
  2: { exists []. unfold MemDB.GetTransactions. exec_unfold. simpl.
       rewrite Hsub. simpl. rewrite app_nil_r. auto. }
  rewrite (MemDB_GetTransactions_run node Endpoint address w Hsub).
  pose proof (MemDB_GetCurrentBlock_posted node Endpoint w) as Hp1.
  destruct (MemDB.GetCurrentBlock node Endpoint w) as [[[h [e|]]|p] w1]; simpl in Hp1;
    try (eexists; split; [exact Hp1|]; auto; fail).
  destruct (callRPCMethod_total node Endpoint "eth_getBlockByNumber"
              [VString (Sprintf_0x_x h); VBool true] (mkBlock "" []) w1)
    as ([block [e|]] & w2 & -> & Hp2);
    (eexists; split; [simpl; rewrite Hp2, Hp1, <- app_assoc; reflexivity|];
     right; right; exists h; reflexivity).
Qed.

Lemma GlobalMap_GetTransactions_trace address w :
  exists reqs,
    posted (snd (GlobalMap.GetTransactions node Endpoint address w)) = posted w ++ reqs /\
    query_trace Endpoint reqs.
Proof.
  unfold query_trace.
  rewrite (GlobalMap_GetTransactions_run node Endpoint address w).
  pose proof (MemDB_GetCurrentBlock_posted node Endpoint w) as Hp1.
  rewrite <- (GlobalMap_GetCurrentBlock_eq node Endpoint) in Hp1.
  destruct (GlobalMap.GetCurrentBlock node Endpoint w) as [[[h [e|]]|p] w1]; simpl in Hp1;
    try (eexists; split; [exact Hp1|]; auto; fail).
  destruct (callRPCMethod_total node Endpoint "eth_getBlockByNumber"
              [VString (Sprintf_0x_x h); VBool true] (mkBlock "" []) w1)
    as ([block [e|]] & w2 & -> & Hp2);
    (eexists; split; [simpl; rewrite Hp2, Hp1, <- app_assoc; reflexivity|];
     right; right; exists h; reflexivity).
Qed.

(** X8: a run of [GetTransactions], in main.go and in both snapshots,
    posts nothing, or the height request alone, or the height request
    followed by one block request with [true] for full transactions: never
    more than two requests, never a block request without the height
    request before it. *)
Theorem GetTransactions_request_trace (address : string) (w : World) :
  (exists reqs,
     posted (snd (Main.GetTransactions node Endpoint address w)) = posted w ++ reqs /\
     query_trace Endpoint reqs) /\
  (exists reqs,
     posted (snd (MemDB.GetTransactions node Endpoint address w)) = posted w ++ reqs /\
     query_trace Endpoint reqs) /\
  (exists reqs,
     posted (snd (GlobalMap.GetTransactions node Endpoint address w)) = posted w ++ reqs /\
     query_trace Endpoint reqs).
Proof.
  split; [|split].
  - apply Main_GetTransactions_trace.
  - apply MemDB_GetTransactions_trace.
  - apply GlobalMap_GetTransactions_trace.
Qed.

End Traces.

(** ** Failures inside the transaction query *)

Section QueryFailures.
Import MemoryStorage.
Context (node : Node) (Endpoint : string) (w : World).

Lemma MemDB_GetCurrentBlock_failure_run e :
  height_failure (node (posted w) (request_for Endpoint "eth_blockNumber" [])) e ->
  exists w1,
    MemDB.GetCurrentBlock node Endpoint w = (Done (0, Some e), w1) /\
    posted w1 = posted w ++ [request_for Endpoint "eth_blockNumber" []].
Proof.
  intros Hfail.
  pose proof (MemDB_GetCurrentBlock_failure node Endpoint w e Hfail) as Hfst.
  pose proof (MemDB_GetCurrentBlock_posted node Endpoint w) as Hp.
  destruct (MemDB.GetCurrentBlock node Endpoint w) as [r w1]. simpl in *. subst r.
  exists w1. split; [reflexivity|exact Hp].
Qed.

(** X9: when the height query fails inside [GetTransactions], the block
    is not requested. The snapshots return the very error of the height
    query, with a nil list; main.go, which sees only the height 0,
    returns the empty list after printing [blockNumber is %v]. *)
Theorem GetTransactions_height_failure (address : string) (e : error) :
  height_failure (node (posted w) (request_for Endpoint "eth_blockNumber" [])) e ->
  (fst (GlobalMap.GetTransactions node Endpoint address w) = Done ([], Some e) /\
   posted (snd (GlobalMap.GetTransactions node Endpoint address w)) =
     posted w ++ [request_for Endpoint "eth_blockNumber" []]) /\
  (IsSubscriber address (subscribers w) = true ->
   (fst (MemDB.GetTransactions node Endpoint address w) = Done ([], Some e) /\
    posted (snd (MemDB.GetTransactions node Endpoint address w)) =
      posted w ++ [request_for Endpoint "eth_blockNumber" []]) /\
   (address <> ""%string ->
    fst (Main.GetTransactions node Endpoint address w) = Done [] /\
    posted (snd (Main.GetTransactions node Endpoint address w)) =
      posted w ++ [request_for Endpoint "eth_blockNumber" []] /\
    exists out,
      stdout (snd (Main.GetTransactions node Endpoint address w)) =
        out ++ [mkPrint "error: %v" [VError e]; mkPrint "blockNumber is %v\n" [VUint 0]])).
Proof.
  intros Hfail.
  destruct (MemDB_GetCurrentBlock_failure_run e Hfail) as (w1 & Hrun & Hp1).
  split; [|intros Hsub; split].
  - rewrite GlobalMap_GetTransactions_run, GlobalMap_GetCurrentBlock_eq, Hrun.
    split; [reflexivity|exact Hp1].
  - rewrite (MemDB_GetTransactions_run node Endpoint address w Hsub), Hrun.
    split; [reflexivity|exact Hp1].
  - intros Hne. apply String.eqb_neq in Hne.
    rewrite (Main_GetTransactions_run node Endpoint address w Hne Hsub).
    destruct (Main_GetCurrentBlock_failure_run node Endpoint w e Hfail) as (w' & Hmain).
    pose proof (Main_GetCurrentBlock_posted node Endpoint w) as Hpm.
    rewrite Hmain in *. simpl in *.
    split; [reflexivity|]. split; [exact Hpm|].
    exists (stdout w'). now rewrite <- app_assoc.
Qed.

Section AfterHeight.
Variables (hex : string) (id : Z) (h : Z).
Hypothesis Hheight :
  node (posted w) (request_for Endpoint "eth_blockNumber" []) =
    Response (Envelope (mkRPCResponse (RawString hex) None id)).
Hypothesis Hparse : ParseHexUint64 hex = Done (h, None).

Lemma callRPCMethod_block_failure w1 e :
  block_failure (node (posted w1) (block_request_for Endpoint h)) e ->
  exists block w2,
    callRPCMethod node Endpoint "eth_getBlockByNumber"
      [VString (Sprintf_0x_x h); VBool true] (mkBlock "" []) w1
      = (Done (block, Some e), w2).
Proof.
  unfold block_request_for.
  intros [msg Hr | msg Hr | raw r id' Hr | raw id' target e' Hr Hd].
  - rewrite (callRPCMethod_transport _ _ _ _ _ _ _ Hr). eauto.
  - rewrite (callRPCMethod_malformed _ _ _ _ _ _ _ Hr). eauto.
  - rewrite (callRPCMethod_node_error _ _ _ _ _ _ _ _ _ Hr). eauto.
  - rewrite (callRPCMethod_result_rejected _ _ _ _ _ _ _ _ _ _ Hr Hd). eauto.
Qed.

(** X10: when the height was obtained and the block request fails
    (transport, undecodable body, error envelope, undecodable result),
    the snapshots return that error with a nil list; main.go, for a
    non-zero height, prints [error: %v] with it and returns the empty
    list. *)
Theorem GetTransactions_block_failure (address : string) (e : error) :
  block_failure
    (node (posted w ++ [request_for Endpoint "eth_blockNumber" []])
       (block_request_for Endpoint h)) e ->
  fst (GlobalMap.GetTransactions node Endpoint address w) = Done ([], Some e) /\
  (IsSubscriber address (subscribers w) = true ->
   fst (MemDB.GetTransactions node Endpoint address w) = Done ([], Some e) /\
   (address <> ""%string -> h <> 0 ->
    fst (Main.GetTransactions node Endpoint address w) = Done [] /\
    exists out,
      stdout (snd (Main.GetTransactions node Endpoint address w)) =
        out ++ [mkPrint "error: %v" [VError e]])).
Proof.
  intros Hfail.
  pose proof (MemDB_GetCurrentBlock_parsed node Endpoint w hex id h Hheight Hparse) as Hh.
  pose proof (Main_GetCurrentBlock_parsed node Endpoint w hex id h Hheight Hparse) as Hm.
  destruct (callRPCMethod_block_failure
              (sent w (request_for Endpoint "eth_blockNumber" [])) e Hfail)
    as (block & w2 & Hcall).
  split; [|intros Hsub; split].
  - rewrite GlobalMap_GetTransactions_run, GlobalMap_GetCurrentBlock_eq, Hh, Hcall.
    reflexivity.
  - rewrite (MemDB_GetTransactions_run node Endpoint address w Hsub), Hh, Hcall.
    reflexivity.
  - intros Hne Hnz. apply String.eqb_neq in Hne. apply Z.eqb_neq in Hnz.
    rewrite (Main_GetTransactions_run node Endpoint address w Hne Hsub), Hm, Hnz, Hcall.
    split; [reflexivity|]. exists (stdout w2). reflexivity.
Qed.

(** X11: when the height was obtained and the [result] member of the
    answer to the block request is the JSON [null] (the node has no such
    block), [GetTransactions] reports no error: the snapshots return a nil
    list and a nil error, main.go the empty list with nothing printed. *)
Theorem GetTransactions_null_block (address : string) (id' : Z) :
  node (posted w ++ [request_for Endpoint "eth_blockNumber" []])
    (block_request_for Endpoint h) =
    Response (Envelope (mkRPCResponse RawNull None id')) ->
  fst (GlobalMap.GetTransactions node Endpoint address w) = Done ([], None) /\
  (IsSubscriber address (subscribers w) = true ->
   fst (MemDB.GetTransactions node Endpoint address w) = Done ([], None) /\
   (address <> ""%string -> h <> 0 ->
    fst (Main.GetTransactions node Endpoint address w) = Done [] /\
    stdout (snd (Main.GetTransactions node Endpoint address w)) = stdout w)).
Proof.
  intros Hr.
  pose proof (MemDB_GetCurrentBlock_parsed node Endpoint w hex id h Hheight Hparse) as Hh.
  pose proof (Main_GetCurrentBlock_parsed node Endpoint w hex id h Hheight Hparse) as Hm.
  assert (Hcall : callRPCMethod node Endpoint "eth_getBlockByNumber"
                    [VString (Sprintf_0x_x h); VBool true] (mkBlock "" [])
                    (sent w (request_for Endpoint "eth_blockNumber" []))
                  = (Done (mkBlock "" [], None),
                     sent (sent w (request_for Endpoint "eth_blockNumber" []))
                       (block_request_for Endpoint h))).
  { exact (callRPCMethod_result_decoded node Endpoint "eth_getBlockByNumber"
             [VString (Sprintf_0x_x h); VBool true] (mkBlock "" [])
             (sent w (request_for Endpoint "eth_blockNumber" []))
             RawNull id' (mkBlock "" []) Hr eq_refl). }
  split; [|intros Hsub; split].
  - rewrite GlobalMap_GetTransactions_run, GlobalMap_GetCurrentBlock_eq, Hh, Hcall.
    reflexivity.
  - rewrite (MemDB_GetTransactions_run node Endpoint address w Hsub), Hh, Hcall.
    reflexivity.
  - intros Hne Hnz. apply String.eqb_neq in Hne. apply Z.eqb_neq in Hnz.
    rewrite (Main_GetTransactions_run node Endpoint address w Hne Hsub), Hm, Hnz, Hcall.
    split; reflexivity.
Qed.

End AfterHeight.

(** X12: height 0 is a failure in main.go only. When the node's height
    parses to 0, [GetTransactions] of main.go, for a subscribed non-empty
    address, prints [blockNumber is %v] and returns the empty list without
    requesting a block; the snapshots go on and request block [0x0]. *)
Theorem GetTransactions_height_zero (address hex : string) (id : Z) :
  node (posted w) (request_for Endpoint "eth_blockNumber" []) =
    Response (Envelope (mkRPCResponse (RawString hex) None id)) ->
  ParseHexUint64 hex = Done (0, None) ->
  IsSubscriber address (subscribers w) = true ->
  (address <> ""%string ->
   Main.GetTransactions node Endpoint address w =
     (Done [],
      printed (sent w (request_for Endpoint "eth_blockNumber" []))
        "blockNumber is %v\n" [VUint 0])) /\
  posted (snd (MemDB.GetTransactions node Endpoint address w)) =
    posted w ++ [request_for Endpoint "eth_blockNumber" [];
                 request_for Endpoint "eth_getBlockByNumber" [VString "0x0"; VBool true]] /\
  posted (snd (GlobalMap.GetTransactions node Endpoint address w)) =
    posted w ++ [request_for Endpoint "eth_blockNumber" [];
                 request_for Endpoint "eth_getBlockByNumber" [VString "0x0"; VBool true]].
Proof.
  intros Hheight Hparse Hsub.
  pose proof (MemDB_GetCurrentBlock_parsed node Endpoint w hex id 0 Hheight Hparse) as Hh.
  pose proof (Main_GetCurrentBlock_parsed node Endpoint w hex id 0 Hheight Hparse) as Hm.
  destruct (callRPCMethod_total node Endpoint "eth_getBlockByNumber"
              [VString (Sprintf_0x_x 0); VBool true] (mkBlock "" [])
              (sent w (request_for Endpoint "eth_blockNumber" [])))
    as ([block [e|]] & w2 & Hcall & Hp2);
    (split; [|split];
     [ intros Hne; apply String.eqb_neq in Hne;
       rewrite (Main_GetTransactions_run node Endpoint address w Hne Hsub), Hm;
       reflexivity
     | rewrite (MemDB_GetTransactions_run node Endpoint address w Hsub), Hh, Hcall;
       simpl; rewrite Hp2; simpl; now rewrite <- app_assoc
     | rewrite GlobalMap_GetTransactions_run, GlobalMap_GetCurrentBlock_eq, Hh, Hcall;
       simpl; rewrite Hp2; simpl; now rewrite <- app_assoc ]).
Qed.

End QueryFailures.

(** X9 at an unreachable node, X10 at a node that drops the block
    request, X11 at a node without the block, X12 at a node at height 0. *)
Lemma GetTransactions_height_failure_witness :
  fst (MemDB.GetTransactions Mock.node_down Mock.endpoint Mock.X (Mock.subscribed Mock.X))
    = Done ([], Some (LibError "http" "connection refused")).
Proof.
  apply (proj2 (GetTransactions_height_failure Mock.node_down Mock.endpoint
                  (Mock.subscribed Mock.X) Mock.X (LibError "http" "connection refused")
                  (transport_failure _ "connection refused" eq_refl))).
  vm_compute. reflexivity.
Defined.

Lemma GetTransactions_block_failure_witness :
  fst (MemDB.GetTransactions MockNodes.node_block_down Mock.endpoint Mock.X
         (Mock.subscribed Mock.X))
    = Done ([], Some (LibError "http" "connection reset")).
Proof.
  apply (proj2 (GetTransactions_block_failure MockNodes.node_block_down Mock.endpoint
                  (Mock.subscribed Mock.X) "0x5" 1 5 eq_refl eq_refl Mock.X
                  (LibError "http" "connection reset")
                  (block_transport_failure _ "connection reset" eq_refl))).
  vm_compute. reflexivity.
Defined.

Lemma GetTransactions_null_block_witness :
  fst (Main.GetTransactions MockNodes.node_block_null Mock.endpoint Mock.X
         (Mock.subscribed Mock.X)) = Done [].
Proof.
  apply (proj2 (GetTransactions_null_block MockNodes.node_block_null Mock.endpoint
                  (Mock.subscribed Mock.X) "0x5" 1 5 eq_refl eq_refl Mock.X 1 eq_refl)).
  - vm_compute. reflexivity.
  - discriminate.
  - discriminate.
Defined.

Lemma GetTransactions_height_zero_witness :
  Main.GetTransactions Mock.node_at_0 Mock.endpoint Mock.X (Mock.subscribed Mock.X) =
    (Done [],
     printed (sent (Mock.subscribed Mock.X) (request_for Mock.endpoint "eth_blockNumber" []))
       "blockNumber is %v\n" [VUint 0]).
Proof.
  apply (proj1 (GetTransactions_height_zero Mock.node_at_0 Mock.endpoint
                  (Mock.subscribed Mock.X) Mock.X "0x0" 1 eq_refl eq_refl
                  ltac:(vm_compute; reflexivity))).
  discriminate.
Defined.

(** ** The command loops *)

Section LoopFrames.

Lemma keeps_Println v : keeps_subscribers (Println v).
Proof. intros w. reflexivity. Qed.

Lemma silent_Println v : silent (Println v).
Proof. intros w. reflexivity. Qed.

Lemma silent_Printf fmt a : silent (Printf fmt a).
Proof. intros w. reflexivity. Qed.

Lemma subscribers_bind_keeps {A B} (m : Exec A) (k : A -> Exec B) w :
  (forall a, keeps_subscribers (k a)) ->
  subscribers (snd (bind m k w)) = subscribers (snd (m w)).
Proof.
  intros Hk. unfold bind. destruct (m w) as [[a|p] w']; [apply Hk|reflexivity].
Qed.

Lemma posted_bind_silent {A B} (m : Exec A) (k : A -> Exec B) w :
  (forall a, silent (k a)) ->
  posted (snd (bind m k w)) = posted (snd (m w)).
Proof.
  intros Hk. unfold bind. destruct (m w) as [[a|p] w']; [apply Hk|reflexivity].
Qed.

Lemma address_nth (args : list string) :
  (if (1 <? length args)%nat then nth 1 args ""%string else ""%string)
    = nth 1 args ""%string.
Proof.
  destruct (Nat.ltb_spec 1 (length args)) as [_|Hshort]; [reflexivity|].
  symmetry. apply nth_overflow. lia.
Qed.

Lemma registry_effect_member a action address before after :
  registry_effect action address before after ->
  MemoryStorage.IsSubscriber a before = true ->
  MemoryStorage.IsSubscriber a after = true.
Proof.
  intros [-> | (_ & _ & ->)] Hin; [exact Hin|].
  unfold MemoryStorage.IsSubscriber in *.
  destruct (decide (address = a)) as [->|Hne].
  - now rewrite lookup_insert_eq.
  - now rewrite lookup_insert_ne.
Qed.

Lemma registry_effect_empty action address before after :
  registry_effect action address before after ->
  MemoryStorage.IsSubscriber "" before = false ->
  MemoryStorage.IsSubscriber "" after = false.
Proof.
  intros [-> | (_ & Hne & ->)] Hout; [exact Hout|].
  unfold MemoryStorage.IsSubscriber in *. now rewrite lookup_insert_ne.
Qed.

Lemma registry_effect_all_true action address before after :
  registry_effect action address before after ->
  all_true before -> all_true after.
Proof.
  intros [-> | (_ & _ & ->)] Hall; [exact Hall|].
  intros a v. destruct (decide (address = a)) as [->|Hne].
  - rewrite lookup_insert_eq. congruence.
  - rewrite lookup_insert_ne by assumption. apply Hall.
Qed.

End LoopFrames.

Section LoopEffects.
Context (Fields : string -> list string) (node : Node).

Lemma Main_SubscribeAddress_subscribers address w :
  subscribers (snd (Main.SubscribeAddress address w)) =
    if String.eqb address "" then subscribers w
    else <[address := true]> (subscribers w).
Proof. unfold Main.SubscribeAddress. now destruct (String.eqb address ""). Qed.

Lemma MainLoop_command_effect cmd w :
  registry_effect (nth 0 (Fields cmd) ""%string) (nth 1 (Fields cmd) ""%string)
    (subscribers w) (subscribers (snd (MainLoop.command Fields node cmd w))).
Proof.
  unfold MainLoop.command. rewrite address_nth.
  destruct (length (Fields cmd) <? 1)%nat; [now left|].
  destruct (String.eqb _ "getCurrentBlock").
  { left. rewrite subscribers_bind_keeps by (intro; apply keeps_Println).
    apply keeps_Main_GetCurrentBlock. }
  destruct (String.eqb _ "getTransaction").
  { left. rewrite subscribers_bind_keeps by (intro; apply keeps_Println).
    apply keeps_Main_GetTransactions. }
  destruct (String.eqb_spec (nth 0 (Fields cmd) ""%string) "subscribeAddress") as [Hact|_];
    [|now left].
  rewrite subscribers_bind_keeps by (intro; apply keeps_Println).
  rewrite Main_SubscribeAddress_subscribers.
  destruct (String.eqb_spec (nth 1 (Fields cmd) ""%string) ""); [now left|].
  right. auto.
Qed.

Lemma MemDBLoop_command_effect cmd w :
  registry_effect (nth 0 (Fields cmd) ""%string) (nth 1 (Fields cmd) ""%string)
    (subscribers w) (subscribers (snd (MemDBLoop.command Fields node cmd w))).
Proof.
  unfold MemDBLoop.command. rewrite address_nth.
  destruct (length (Fields cmd) <? 1)%nat; [now left|].
  destruct (String.eqb _ "getCurrentBlock").
  { left. rewrite subscribers_bind_keeps by (intros [? [?|]]; keeps; apply keeps_Println).
    apply keeps_MemDB_GetCurrentBlock. }
  destruct (String.eqb _ "getTransaction").
  { left. destruct (String.eqb _ ""); [reflexivity|].
    rewrite subscribers_bind_keeps by (intros [? [?|]]; keeps; apply keeps_Println).
    apply keeps_MemDB_GetTransactions. }
  destruct (String.eqb_spec (nth 0 (Fields cmd) ""%string) "subscribeAddress") as [Hact|_];
    [|now left].
  destruct (String.eqb_spec (nth 1 (Fields cmd) ""%string) ""); [now left|].
  rewrite subscribers_bind_keeps
    by (intros []; simpl; [apply keeps_Println|apply keeps_Printf]).
  right. auto.
Qed.

Lemma GlobalMapLoop_command_effect cmd w :
  registry_effect (nth 0 (Fields cmd) ""%string) (nth 1 (Fields cmd) ""%string)
    (subscribers w) (subscribers (snd (GlobalMapLoop.command Fields node cmd w))).
Proof.
  unfold GlobalMapLoop.command. rewrite address_nth.
  destruct (length (Fields cmd) <? 1)%nat; [now left|].
  destruct (String.eqb _ "getCurrentBlock").
  { left. rewrite subscribers_bind_keeps by (intros [? [?|]]; keeps; apply keeps_Println).
    apply keeps_GlobalMap_GetCurrentBlock. }
  destruct (String.eqb _ "getTransaction").
  { left. destruct (String.eqb _ ""); [reflexivity|].
    unfold bind at 1, get_subscribers.
    destruct (negb _); [reflexivity|].
    rewrite subscribers_bind_keeps by (intros [? [?|]]; keeps; apply keeps_Println).
    apply keeps_GlobalMap_GetTransactions. }
  destruct (String.eqb_spec (nth 0 (Fields cmd) ""%string) "subscribeAddress") as [Hact|_];
    [|now left].
  destruct (String.eqb_spec (nth 1 (Fields cmd) ""%string) ""); [now left|].
  rewrite subscribers_bind_keeps
    by (intros []; simpl; [apply keeps_Println|apply keeps_Printf]).
  right. auto.
Qed.

(** X13: one turn of the command loop, in main.go and in both snapshots,
    either leaves the subscriber map as it was or, when the first field is
    [subscribeAddress] and the second is not empty, stores [true] under
    the second field. No command deletes an entry (the loop of the second
    snapshot never calls [UnsubscribeAddress]), and none stores the empty
    address. *)
Theorem command_registry_effect (cmd : string) (w : World) :
  registry_effect (nth 0 (Fields cmd) ""%string) (nth 1 (Fields cmd) ""%string)
    (subscribers w) (subscribers (snd (MainLoop.command Fields node cmd w))) /\
  registry_effect (nth 0 (Fields cmd) ""%string) (nth 1 (Fields cmd) ""%string)
    (subscribers w) (subscribers (snd (MemDBLoop.command Fields node cmd w))) /\
  registry_effect (nth 0 (Fields cmd) ""%string) (nth 1 (Fields cmd) ""%string)
    (subscribers w) (subscribers (snd (GlobalMapLoop.command Fields node cmd w))).
Proof.
  split; [|split].
  - apply MainLoop_command_effect.
  - apply MemDBLoop_command_effect.
  - apply GlobalMapLoop_command_effect.
Qed.

End LoopEffects.

(** ** Sessions *)

Section Sessions.
Import MemoryStorage.
Context (Fields : string -> list string) (node : Node).

Section Invariant.
Variable P : gmap string bool -> Prop.
Hypothesis P_effect : forall action address before after,
  registry_effect action address before after -> P before -> P after.

Lemma MainLoop_serve_preserves cmds : preserves P (MainLoop.serve Fields node cmds).
Proof.
  induction cmds as [|cmd rest IH]; intros w HP; [exact HP|].
  cbn [MainLoop.serve]. unfold bind.
  pose proof (MainLoop_command_effect Fields node cmd w) as He.
  destruct (MainLoop.command Fields node cmd w) as [[[]|p] w']; simpl in *.
  - apply IH. eapply P_effect; eassumption.
  - eapply P_effect; eassumption.
Qed.

Lemma MemDBLoop_serve_preserves cmds : preserves P (MemDBLoop.serve Fields node cmds).
Proof.
  induction cmds as [|cmd rest IH]; intros w HP; [exact HP|].
  cbn [MemDBLoop.serve]. unfold bind.
  pose proof (MemDBLoop_command_effect Fields node cmd w) as He.
  destruct (MemDBLoop.command Fields node cmd w) as [[[]|p] w']; simpl in *.
  - apply IH. eapply P_effect; eassumption.
  - eapply P_effect; eassumption.
Qed.

Lemma GlobalMapLoop_serve_preserves cmds :
  preserves P (GlobalMapLoop.serve Fields node cmds).
Proof.
  induction cmds as [|cmd rest IH]; intros w HP; [exact HP|].
  cbn [GlobalMapLoop.serve]. unfold bind.
  pose proof (GlobalMapLoop_command_effect Fields node cmd w) as He.
  destruct (GlobalMapLoop.command Fields node cmd w) as [[[]|p] w']; simpl in *.
  - apply IH. eapply P_effect; eassumption.
  - eapply P_effect; eassumption.
Qed.

End Invariant.

(** X14: along any sequence of commands, in main.go and in both
    snapshots, an address that is subscribed stays subscribed, whatever
    the commands are and whether or not the loop ends in a panic. *)
Theorem session_keeps_subscriptions (cmds : list string) (w : World) (a : string) :
  IsSubscriber a (subscribers w) = true ->
  IsSubscriber a (subscribers (snd (MainLoop.serve Fields node cmds w))) = true /\
  IsSubscriber a (subscribers (snd (MemDBLoop.serve Fields node cmds w))) = true /\
  IsSubscriber a (subscribers (snd (GlobalMapLoop.serve Fields node cmds w))) = true.
Proof.
  intros Hin. split; [|split].
  - apply (MainLoop_serve_preserves (fun m => IsSubscriber a m = true)); [|exact Hin].
    intros action address before after. apply registry_effect_member.
  - apply (MemDBLoop_serve_preserves (fun m => IsSubscriber a m = true)); [|exact Hin].
    intros action address before after. apply registry_effect_member.
  - apply (GlobalMapLoop_serve_preserves (fun m => IsSubscriber a m = true)); [|exact Hin].
    intros action address before after. apply registry_effect_member.
Qed.

Lemma all_true_empty : all_true ∅.
Proof. intros a v Hlook. rewrite lookup_empty in Hlook. discriminate. Qed.

Lemma all_true_member (memory : gmap string bool) a :
  all_true memory ->
  IsSubscriber a memory = true <-> is_Some (memory !! a).
Proof.
  intros Hall. unfold IsSubscriber. split.
  - destruct (memory !! a); [eauto|discriminate].
  - intros [v Hv]. rewrite Hv. now apply (Hall a v).
Qed.

Lemma well_kept_effect action address before after :
  registry_effect action address before after -> well_kept before -> well_kept after.
Proof.
  intros He [Hempty Hall]. split.
  - eapply registry_effect_empty; eassumption.
  - eapply registry_effect_all_true; eassumption.
Qed.

Lemma well_kept_empty : well_kept ∅.
Proof. split; [reflexivity|apply all_true_empty]. Qed.

(** X15: whatever commands [processCommands] receives, the map it made
    never has the empty address as a subscriber, and an address is a
    subscriber exactly when it is a key of the map, every stored value
    being [true]. In main.go and in both snapshots, whatever the starting
    state. *)
Theorem processCommands_registry_invariant (cmds : list string) (w : World) :
  (let final := subscribers (snd (MainLoop.processCommands Fields node cmds w)) in
   IsSubscriber "" final = false /\
   forall a, IsSubscriber a final = true <-> is_Some (final !! a)) /\
  (let final := subscribers (snd (MemDBLoop.processCommands Fields node cmds w)) in
   IsSubscriber "" final = false /\
   forall a, IsSubscriber a final = true <-> is_Some (final !! a)) /\
  (let final := subscribers (snd (GlobalMapLoop.processCommands Fields node cmds w)) in
   IsSubscriber "" final = false /\
   forall a, IsSubscriber a final = true <-> is_Some (final !! a)).
Proof.
  split; [|split]; cbv zeta.
  - destruct (MainLoop_serve_preserves well_kept well_kept_effect cmds
                (mkWorld ∅ (stdout w) (posted w)) well_kept_empty) as [Hempty Hall].
    split; [exact Hempty|]. intros a. now apply all_true_member.
  - destruct (MemDBLoop_serve_preserves well_kept well_kept_effect cmds
                (mkWorld ∅ (stdout w) (posted w)) well_kept_empty) as [Hempty Hall].
    split; [exact Hempty|]. intros a. now apply all_true_member.
  - destruct (GlobalMapLoop_serve_preserves well_kept well_kept_effect cmds
                (mkWorld ∅ (stdout w) (posted w)) well_kept_empty) as [Hempty Hall].
    split; [exact Hempty|]. intros a. now apply all_true_member.
Qed.

End Sessions.

(** ** Commands and the network *)

Section CommandGate.
Import MemoryStorage.
Context (Fields : string -> list string) (node : Node).

Lemma second_field (action : string) (rest : list string) :
  (if (1 <? length (action :: rest))%nat then nth 1 (action :: rest) ""%string
   else ""%string) = hd ""%string rest.
Proof. now destruct rest. Qed.

Lemma Main_GetTransactions_refused address w :
  address = ""%string \/ IsSubscriber address (subscribers w) = false ->
  posted (snd (Main.GetTransactions node cloudflare address w)) = posted w.
Proof.
  intros Hgate. unfold Main.GetTransactions.
  destruct (String.eqb_spec address ""); [reflexivity|].
  destruct Hgate as [?|Hout]; [contradiction|].
  exec_unfold. simpl. now rewrite Hout.
Qed.

(** X16: a [getTransaction] command whose address is missing, empty or
    not subscribed posts no request, in main.go (where [GetTransactions]
    turns it away) and in both snapshots (where the loop does, for the
    empty address, and for the unsubscribed one the loop of the second
    snapshot and [GetTransactions] of the first). *)
Theorem getTransaction_command_gated (cmd : string) (rest : list string) (w : World) :
  Fields cmd = "getTransaction"%string :: rest ->
  hd ""%string rest = ""%string \/
    IsSubscriber (hd ""%string rest) (subscribers w) = false ->
  posted (snd (MainLoop.command Fields node cmd w)) = posted w /\
  posted (snd (MemDBLoop.command Fields node cmd w)) = posted w /\
  posted (snd (GlobalMapLoop.command Fields node cmd w)) = posted w.
Proof.
  intros HF Hgate. split; [|split].
  - unfold MainLoop.command. rewrite HF, second_field. cbn.
    rewrite posted_bind_silent by (intro; apply silent_Println).
    now apply Main_GetTransactions_refused.
  - unfold MemDBLoop.command. rewrite HF, second_field. cbn.
    destruct (String.eqb_spec (hd ""%string rest) ""); [reflexivity|].
    destruct Hgate as [?|Hout]; [contradiction|].
    unfold MemDB.GetTransactions. exec_unfold. simpl. now rewrite Hout.
  - unfold GlobalMapLoop.command. rewrite HF, second_field. cbn.
    destruct (String.eqb_spec (hd ""%string rest) ""); [reflexivity|].
    destruct Hgate as [?|Hout]; [contradiction|].
    exec_unfold. simpl. rewrite index_IsSubscriber, Hout. reflexivity.
Qed.

End CommandGate.

Section CommandTraces.
Import MemoryStorage.
Context (Fields : string -> list string) (node : Node).

Lemma query_trace_nil : query_trace cloudflare [].
Proof. now left. Qed.

Lemma query_trace_height : query_trace cloudflare [request_for cloudflare "eth_blockNumber" []].
Proof. right. now left. Qed.

Lemma query_trace_bound reqs :
  query_trace cloudflare reqs ->
  (length reqs <= 2)%nat /\ Forall to_cloudflare reqs.
Proof.
  intros [-> | [-> | [h ->]]]; simpl; split; try lia;
    repeat constructor.
Qed.

Ltac silent_continuation :=
  intros; repeat match goal with
                 | |- silent (let '(_, _) := ?x in _) => destruct x
                 | |- silent (match ?x with _ => _ end) => destruct x
                 | |- silent (if ?b then _ else _) => destruct b
                 end; first [apply silent_Println | apply silent_Printf].

Lemma MainLoop_command_trace cmd w :
  exists reqs,
    posted (snd (MainLoop.command Fields node cmd w)) = posted w ++ reqs /\
    query_trace cloudflare reqs.
Proof.
  unfold MainLoop.command.
  destruct (length (Fields cmd) <? 1)%nat.
  { exists []. rewrite app_nil_r. split; [reflexivity|apply query_trace_nil]. }
  destruct (String.eqb _ "getCurrentBlock").
  { exists [request_for cloudflare "eth_blockNumber" []]. rewrite posted_bind_silent by silent_continuation.
    split; [apply Main_GetCurrentBlock_posted|apply query_trace_height]. }
  destruct (String.eqb _ "getTransaction").
  { rewrite posted_bind_silent by silent_continuation.
    apply Main_GetTransactions_trace. }
  exists []. rewrite app_nil_r. split; [|apply query_trace_nil].
  destruct (String.eqb _ "subscribeAddress"); [|reflexivity].
  rewrite posted_bind_silent by silent_continuation.
  unfold Main.SubscribeAddress. now destruct (String.eqb _ "").
Qed.

Lemma MemDBLoop_command_trace cmd w :
  exists reqs,
    posted (snd (MemDBLoop.command Fields node cmd w)) = posted w ++ reqs /\
    query_trace cloudflare reqs.
Proof.
  unfold MemDBLoop.command.
  destruct (length (Fields cmd) <? 1)%nat.
  { exists []. rewrite app_nil_r. split; [reflexivity|apply query_trace_nil]. }
  destruct (String.eqb _ "getCurrentBlock").
  { exists [request_for cloudflare "eth_blockNumber" []]. rewrite posted_bind_silent by silent_continuation.
    split; [apply MemDB_GetCurrentBlock_posted|apply query_trace_height]. }
  destruct (String.eqb _ "getTransaction").
  { destruct (String.eqb _ "").
    { exists []. rewrite app_nil_r. split; [reflexivity|apply query_trace_nil]. }
    rewrite posted_bind_silent by silent_continuation.
    apply MemDB_GetTransactions_trace. }
  exists []. rewrite app_nil_r. split; [|apply query_trace_nil].
  destruct (String.eqb _ "subscribeAddress"); [|reflexivity].
  destruct (String.eqb _ ""); [reflexivity|].
  now rewrite posted_bind_silent by silent_continuation.
Qed.

Lemma GlobalMapLoop_command_trace cmd w :
  exists reqs,
    posted (snd (GlobalMapLoop.command Fields node cmd w)) = posted w ++ reqs /\
    query_trace cloudflare reqs.
Proof.
  unfold GlobalMapLoop.command.
  destruct (length (Fields cmd) <? 1)%nat.
  { exists []. rewrite app_nil_r. split; [reflexivity|apply query_trace_nil]. }
  destruct (String.eqb _ "getCurrentBlock").
  { exists [request_for cloudflare "eth_blockNumber" []]. rewrite posted_bind_silent by silent_continuation.
    split; [|apply query_trace_height].
    rewrite GlobalMap_GetCurrentBlock_eq. apply MemDB_GetCurrentBlock_posted. }
  destruct (String.eqb _ "getTransaction").
  { destruct (String.eqb _ "").
    { exists []. rewrite app_nil_r. split; [reflexivity|apply query_trace_nil]. }
    unfold bind at 1, get_subscribers.
    destruct (negb _).
    { exists []. rewrite app_nil_r. split; [reflexivity|apply query_trace_nil]. }
    rewrite posted_bind_silent by silent_continuation.
    apply GlobalMap_GetTransactions_trace. }
  exists []. rewrite app_nil_r. split; [|apply query_trace_nil].
  destruct (String.eqb _ "subscribeAddress"); [|reflexivity].
  destruct (String.eqb _ ""); [reflexivity|].
  now rewrite posted_bind_silent by silent_continuation.
Qed.

Section Bound.
Variable command : string -> Exec unit.
Variable serve : list string -> Exec unit.
Hypothesis serve_nil : serve [] = ret tt.
Hypothesis serve_cons : forall cmd rest,
  serve (cmd :: rest) = bind (command cmd) (fun _ => serve rest).
Hypothesis command_trace : forall cmd w,
  exists reqs,
    posted (snd (command cmd w)) = posted w ++ reqs /\ query_trace cloudflare reqs.

Lemma serve_trace_bound cmds : forall w,
  exists reqs,
    posted (snd (serve cmds w)) = posted w ++ reqs /\
    (length reqs <= 2 * length cmds)%nat /\ Forall to_cloudflare reqs.
Proof.
  induction cmds as [|cmd rest IH]; intros w.
  - rewrite serve_nil. exists []. simpl. rewrite app_nil_r. auto.
  - rewrite serve_cons. unfold bind.
    destruct (command_trace cmd w) as (reqs1 & Hp1 & Ht1).
    destruct (query_trace_bound reqs1 Ht1) as [Hlen1 Hall1].
    destruct (command cmd w) as [[[]|p] w1]; simpl in Hp1.
    + destruct (IH w1) as (reqs2 & Hp2 & Hlen2 & Hall2).
      exists (reqs1 ++ reqs2). rewrite Hp2, Hp1, <- app_assoc.
      split; [reflexivity|]. split.
      * rewrite length_app. simpl length. lia.
      * rewrite Forall_app. auto.
    + exists reqs1. simpl. split; [exact Hp1|]. split; [simpl length; lia|exact Hall1].
Qed.

End Bound.

(** X17: a session of [n] commands posts at most [2n] requests, each to
    [https://cloudflare-eth.com] with content type [application/json]; in
    main.go and in both snapshots, and also when the loop ends in a
    panic. *)
Theorem session_request_bound (cmds : list string) (w : World) :
  (exists reqs,
     posted (snd (MainLoop.serve Fields node cmds w)) = posted w ++ reqs /\
     (length reqs <= 2 * length cmds)%nat /\ Forall to_cloudflare reqs) /\
  (exists reqs,
     posted (snd (MemDBLoop.serve Fields node cmds w)) = posted w ++ reqs /\
     (length reqs <= 2 * length cmds)%nat /\ Forall to_cloudflare reqs) /\
  (exists reqs,
     posted (snd (GlobalMapLoop.serve Fields node cmds w)) = posted w ++ reqs /\
     (length reqs <= 2 * length cmds)%nat /\ Forall to_cloudflare reqs).
Proof.
  split; [|split].
  - apply (serve_trace_bound (MainLoop.command Fields node));
      [reflexivity | reflexivity | apply MainLoop_command_trace].
  - apply (serve_trace_bound (MemDBLoop.command Fields node));
      [reflexivity | reflexivity | apply MemDBLoop_command_trace].
  - apply (serve_trace_bound (GlobalMapLoop.command Fields node));
      [reflexivity | reflexivity | apply GlobalMapLoop_command_trace].
Qed.

End CommandTraces.

Section SubscribeThenQuery.
Import MemoryStorage.
Context (Fields : string -> list string) (node : Node).

Lemma Main_GetTransactions_posts_height address w :
  String.eqb address "" = false ->
  IsSubscriber address (subscribers w) = true ->
  exists reqs,
    posted (snd (Main.GetTransactions node cloudflare address w)) =
      posted w ++ request_for cloudflare "eth_blockNumber" [] :: reqs.
Proof.
  intros He Hsub. rewrite (Main_GetTransactions_run node cloudflare address w He Hsub).
  pose proof (Main_GetCurrentBlock_posted node cloudflare w) as Hp1.
  destruct (Main.GetCurrentBlock node cloudflare w) as [[h|p] w1]; simpl in Hp1;
    [|exists []; exact Hp1].
  destruct (h =? 0); [exists []; exact Hp1|].
  destruct (callRPCMethod_total node cloudflare "eth_getBlockByNumber"
              [VString (Sprintf_0x_x h); VBool true] (mkBlock "" []) w1)
    as ([block [e|]] & w2 & -> & Hp2);
    (eexists; simpl; rewrite Hp2, Hp1, <- app_assoc; reflexivity).
Qed.

Lemma MemDB_GetTransactions_posts_height address w :
  IsSubscriber address (subscribers w) = true ->
  exists reqs,
    posted (snd (MemDB.GetTransactions node cloudflare address w)) =
      posted w ++ request_for cloudflare "eth_blockNumber" [] :: reqs.
Proof.
  intros Hsub. rewrite (MemDB_GetTransactions_run node cloudflare address w Hsub).
  pose proof (MemDB_GetCurrentBlock_posted node cloudflare w) as Hp1.
  destruct (MemDB.GetCurrentBlock node cloudflare w) as [[[h [e|]]|p] w1]; simpl in Hp1;
    try (exists []; exact Hp1).
  destruct (callRPCMethod_total node cloudflare "eth_getBlockByNumber"
              [VString (Sprintf_0x_x h); VBool true] (mkBlock "" []) w1)
    as ([block [e|]] & w2 & -> & Hp2);
    (eexists; simpl; rewrite Hp2, Hp1, <- app_assoc; reflexivity).
Qed.

Lemma GlobalMap_GetTransactions_posts_height address w :
  exists reqs,
    posted (snd (GlobalMap.GetTransactions node cloudflare address w)) =
      posted w ++ request_for cloudflare "eth_blockNumber" [] :: reqs.
Proof.
  rewrite (GlobalMap_GetTransactions_run node cloudflare address w).
  pose proof (MemDB_GetCurrentBlock_posted node cloudflare w) as Hp1.
  rewrite <- (GlobalMap_GetCurrentBlock_eq node cloudflare) in Hp1.
  destruct (GlobalMap.GetCurrentBlock node cloudflare w) as [[[h [e|]]|p] w1];
    simpl in Hp1; try (exists []; exact Hp1).
  destruct (callRPCMethod_total node cloudflare "eth_getBlockByNumber"
              [VString (Sprintf_0x_x h); VBool true] (mkBlock "" []) w1)
    as ([block [e|]] & w2 & -> & Hp2);
    (eexists; simpl; rewrite Hp2, Hp1, <- app_assoc; reflexivity).
Qed.

Lemma IsSubscriber_insert_eq a (memory : gmap string bool) :
  IsSubscriber a (<[a := true]> memory) = true.
Proof. unfold IsSubscriber. now rewrite lookup_insert_eq. Qed.

Ltac silent_after :=
  intros; repeat match goal with
                 | |- silent (let '(_, _) := ?x in _) => destruct x
                 | |- silent (match ?x with _ => _ end) => destruct x
                 | |- silent (if ?b then _ else _) => destruct b
                 | |- silent (ret _) => intros ?; reflexivity
                 end; first [apply silent_Println | apply silent_Printf].

(** X18: a subscription made by a command opens the query. After a
    [subscribeAddress] command for a non-empty address, a [getTransaction]
    command for that address is not turned away: the two commands together
    post the height request, and nothing before it. In main.go and in both
    snapshots, whatever the state before. *)
Theorem subscribe_then_query_reaches_node
    (c1 c2 A : string) (r1 r2 : list string) (w : World) :
  Fields c1 = "subscribeAddress"%string :: A :: r1 ->
  Fields c2 = "getTransaction"%string :: A :: r2 ->
  A <> ""%string ->
  (exists reqs,
     posted (snd (MainLoop.serve Fields node [c1; c2] w)) =
       posted w ++ request_for cloudflare "eth_blockNumber" [] :: reqs) /\
  (exists reqs,
     posted (snd (MemDBLoop.serve Fields node [c1; c2] w)) =
       posted w ++ request_for cloudflare "eth_blockNumber" [] :: reqs) /\
  (exists reqs,
     posted (snd (GlobalMapLoop.serve Fields node [c1; c2] w)) =
       posted w ++ request_for cloudflare "eth_blockNumber" [] :: reqs).
Proof.
  intros HF1 HF2 Hne. apply String.eqb_neq in Hne.
  split; [|split].
  - cbn [MainLoop.serve]. unfold bind at 1.
    assert (Hc1 : MainLoop.command Fields node c1 w =
                    (Done tt,
                     printed (mkWorld (<[A := true]> (subscribers w)) (stdout w) (posted w))
                       "%v\n" [VBool true])).
    { unfold MainLoop.command. rewrite HF1. cbn.
      unfold Main.SubscribeAddress. rewrite Hne. reflexivity. }
    rewrite Hc1. rewrite posted_bind_silent by (intros ? ?; reflexivity).
    unfold MainLoop.command. rewrite HF2. cbn.
    rewrite posted_bind_silent by (intro; apply silent_Println).
    match goal with
    | |- context [Main.GetTransactions node cloudflare A ?w1] =>
        destruct (Main_GetTransactions_posts_height A w1 Hne
                    (IsSubscriber_insert_eq A (subscribers w))) as [reqs Hp];
        exists reqs; rewrite Hp; reflexivity
    end.
  - cbn [MemDBLoop.serve]. unfold bind at 1.
    assert (Hc1 : MemDBLoop.command Fields node c1 w =
                    (Done tt,
                     printed (mkWorld (<[A := true]> (subscribers w)) (stdout w) (posted w))
                       "%v\n" [VBool true])).
    { unfold MemDBLoop.command. rewrite HF1. cbn. rewrite Hne. reflexivity. }
    rewrite Hc1. rewrite posted_bind_silent by (intros ? ?; reflexivity).
    unfold MemDBLoop.command. rewrite HF2. cbn. rewrite Hne.
    rewrite posted_bind_silent by silent_after.
    match goal with
    | |- context [MemDB.GetTransactions node cloudflare A ?w1] =>
        destruct (MemDB_GetTransactions_posts_height A w1
                    (IsSubscriber_insert_eq A (subscribers w))) as [reqs Hp];
        exists reqs; rewrite Hp; reflexivity
    end.
  - cbn [GlobalMapLoop.serve]. unfold bind at 1.
    assert (Hc1 : GlobalMapLoop.command Fields node c1 w =
                    (Done tt,
                     printed (mkWorld (<[A := true]> (subscribers w)) (stdout w) (posted w))
                       "%v\n" [VBool true])).
    { unfold GlobalMapLoop.command. rewrite HF1. cbn. rewrite Hne.
      unfold GlobalMap.SubscribeAddress. exec_unfold. simpl.
      unfold GlobalMap.index. rewrite lookup_insert_eq. reflexivity. }
    rewrite Hc1. rewrite posted_bind_silent by (intros ? ?; reflexivity).
    unfold GlobalMapLoop.command. rewrite HF2. cbn. rewrite Hne.
    unfold bind at 1, get_subscribers. cbn [subscribers printed fst snd].
    rewrite index_IsSubscriber, IsSubscriber_insert_eq. cbn [negb].
    rewrite posted_bind_silent by silent_after.
    match goal with
    | |- context [GlobalMap.GetTransactions node cloudflare A ?w1] =>
        destruct (GlobalMap_GetTransactions_posts_height A w1) as [reqs Hp];
        exists reqs; rewrite Hp; reflexivity
    end.
Qed.

End SubscribeThenQuery.

(** ** The loops on examples *)

Example Fields_samples :
  MockCLI.Fields "  getTransaction   0xabc " = ["getTransaction"; "0xabc"]%string /\
  MockCLI.Fields "getCurrentBlock" = ["getCurrentBlock"%string] /\
  MockCLI.Fields "   " = [].
Proof. repeat split. Qed.

Example MainLoop_session :
  stdout (snd (MainLoop.processCommands MockCLI.Fields Mock.node_at_5
                 ["subscribeAddress 0xb794f5ea0ba39494ce839613fffba74279579268";
                  "getTransaction 0xb794f5ea0ba39494ce839613fffba74279579268";
                  "getCurrentBlock"]%string
                 Mock.fresh)) =
    [mkPrint "%v\n" [VBool true];
     mkPrint "%v\n" [VAny (Sprint_Transactions [Mock.tx1; Mock.tx2])];
     mkPrint "%v\n" [VUint 5]].
Proof. vm_compute. reflexivity. Qed.

Lemma session_keeps_subscriptions_witness :
  MemoryStorage.IsSubscriber Mock.X
    (subscribers
       (snd (GlobalMapLoop.serve MockCLI.Fields Mock.node_at_5
               ["getCurrentBlock"; "unsubscribeAddress 0xb794f5ea0ba39494ce839613fffba74279579268";
                "subscribeAddress 0x00000000219ab540356cbb839cbe05303d7705fa"]%string
               (Mock.subscribed Mock.X)))) = true.
Proof.
  apply (session_keeps_subscriptions MockCLI.Fields Mock.node_at_5
           ["getCurrentBlock"; "unsubscribeAddress 0xb794f5ea0ba39494ce839613fffba74279579268";
            "subscribeAddress 0x00000000219ab540356cbb839cbe05303d7705fa"]%string
           (Mock.subscribed Mock.X) Mock.X).
  vm_compute. reflexivity.
Defined.

Lemma getTransaction_command_gated_witness :
  posted (snd (GlobalMapLoop.command MockCLI.Fields Mock.node_at_5
                 "getTransaction 0x000000000000000000000000000000000000dead"
                 (Mock.subscribed Mock.X))) = [].
Proof.
  apply (getTransaction_command_gated MockCLI.Fields Mock.node_at_5
           "getTransaction 0x000000000000000000000000000000000000dead"
           [Mock.U] (Mock.subscribed Mock.X) eq_refl).
  right. vm_compute. reflexivity.
Defined.

Lemma subscribe_then_query_reaches_node_witness :
  exists reqs,
    posted (snd (MainLoop.serve MockCLI.Fields Mock.node_down
                   ["subscribeAddress 0xb794f5ea0ba39494ce839613fffba74279579268";
                    "getTransaction 0xb794f5ea0ba39494ce839613fffba74279579268"]%string
                   Mock.fresh)) =
      posted Mock.fresh ++ request_for cloudflare "eth_blockNumber" [] :: reqs.
Proof.
  apply (subscribe_then_query_reaches_node MockCLI.Fields Mock.node_down
           "subscribeAddress 0xb794f5ea0ba39494ce839613fffba74279579268"
           "getTransaction 0xb794f5ea0ba39494ce839613fffba74279579268"
           Mock.X [] [] Mock.fresh eq_refl eq_refl).
  discriminate.
Defined.

(** ** The transaction query, when the node returns a block *)

Section Selected.
Import MemoryStorage.
Context (node : Node) (Endpoint : string) (w : World).

(** C4, as the code has it. Let the node answer [eth_blockNumber] with a
    string that parses to the height [h], and answer the request for the
    block at [h] with the block [B]. Then [GetTransactions] posts these two
    requests and returns exactly the transactions of [B] whose [from] or
    [to] is the address, in the order of [B]: in the snapshot with the bare
    map for every address, in the snapshot with [MemoryStorage] for every
    subscribed address (both with a nil error), and in main.go for every
    subscribed non-empty address when [h] is not 0. *)
Theorem GetTransactions_returns_touching
    (address hex : string) (id1 : Z) (h : Z) (B : Block) (id2 : Z) :
  node (posted w) (request_for Endpoint "eth_blockNumber" []) =
    Response (Envelope (mkRPCResponse (RawString hex) None id1)) ->
  ParseHexUint64 hex = Done (h, None) ->
  node (posted w ++ [request_for Endpoint "eth_blockNumber" []])
    (block_request_for Endpoint h) =
    Response (Envelope (mkRPCResponse (RawBlock B) None id2)) ->
  GlobalMap.GetTransactions node Endpoint address w =
    (Done (transactions_touching address (Transactions B), None),
     sent (sent w (request_for Endpoint "eth_blockNumber" []))
       (block_request_for Endpoint h)) /\
  (IsSubscriber address (subscribers w) = true ->
   MemDB.GetTransactions node Endpoint address w =
     (Done (transactions_touching address (Transactions B), None),
      sent (sent w (request_for Endpoint "eth_blockNumber" []))
        (block_request_for Endpoint h)) /\
   (address <> ""%string -> h <> 0 ->
    Main.GetTransactions node Endpoint address w =
      (Done (transactions_touching address (Transactions B)),
       sent (sent w (request_for Endpoint "eth_blockNumber" []))
         (block_request_for Endpoint h)))).
Proof.
  intros Hheight Hparse Hblock.
  pose proof (MemDB_GetCurrentBlock_parsed node Endpoint w hex id1 h Hheight Hparse) as Hh.
  pose proof (Main_GetCurrentBlock_parsed node Endpoint w hex id1 h Hheight Hparse) as Hm.
  assert (Hcall : callRPCMethod node Endpoint "eth_getBlockByNumber"
                    [VString (Sprintf_0x_x h); VBool true] (mkBlock "" [])
                    (sent w (request_for Endpoint "eth_blockNumber" []))
                  = (Done (B, None),
                     sent (sent w (request_for Endpoint "eth_blockNumber" []))
                       (block_request_for Endpoint h))).
  { exact (callRPCMethod_result_decoded node Endpoint "eth_getBlockByNumber"
             [VString (Sprintf_0x_x h); VBool true] (mkBlock "" [])
             (sent w (request_for Endpoint "eth_blockNumber" []))
             (RawBlock B) id2 B Hblock eq_refl). }
  split; [|intros Hsub; split].
  - rewrite GlobalMap_GetTransactions_run, GlobalMap_GetCurrentBlock_eq, Hh, Hcall.
    now rewrite select_transactions_touching.
  - rewrite (MemDB_GetTransactions_run node Endpoint address w Hsub), Hh, Hcall.
    now rewrite select_transactions_touching.
  - intros Hne Hnz. apply String.eqb_neq in Hne. apply Z.eqb_neq in Hnz.
    rewrite (Main_GetTransactions_run node Endpoint address w Hne Hsub), Hm, Hnz, Hcall.
    now rewrite select_transactions_touching.
Qed.

End Selected.

(** C4 on the example of the specification: a node at height [0x5] whose
    block holds [X -> Y], [Z -> X] and [W -> V]; the query for [X],
    subscribed, returns the first two, in that order, in main.go and in
    the snapshots. *)
Lemma GetTransactions_returns_touching_witness :
  fst (Main.GetTransactions Mock.node_at_5 Mock.endpoint Mock.X (Mock.subscribed Mock.X))
    = Done [Mock.tx1; Mock.tx2] /\
  fst (MemDB.GetTransactions Mock.node_at_5 Mock.endpoint Mock.X (Mock.subscribed Mock.X))
    = Done ([Mock.tx1; Mock.tx2], None) /\
  fst (GlobalMap.GetTransactions Mock.node_at_5 Mock.endpoint Mock.X (Mock.subscribed Mock.X))
    = Done ([Mock.tx1; Mock.tx2], None).
Proof.
  destruct (GetTransactions_returns_touching Mock.node_at_5 Mock.endpoint
              (Mock.subscribed Mock.X) Mock.X "0x5" 1 5 Mock.block5 1
              eq_refl eq_refl eq_refl) as [Hbare Hgated].
  destruct (Hgated ltac:(vm_compute; reflexivity)) as [Hmem Hmain].
  rewrite Hbare, Hmem, (Hmain ltac:(discriminate) ltac:(discriminate)).
  repeat split.
Defined.

(** C4 as stated fails on main.go at height 0. The node is at height
    [0x0] and its block 0 holds a transaction sent by [X]; with [X]
    subscribed, main.go returns the empty list and never asks for the
    block, while both snapshots return the transaction. *)
Lemma Main_GetTransactions_skips_block_zero :
  MemoryStorage.IsSubscriber Mock.X (subscribers (Mock.subscribed Mock.X)) = true /\
  transactions_touching Mock.X (Transactions MockNodes.block0) = [MockNodes.tx0] /\
  Main.GetTransactions MockNodes.node_genesis Mock.endpoint Mock.X (Mock.subscribed Mock.X) =
    (Done [],
     mkWorld (subscribers (Mock.subscribed Mock.X))
       [mkPrint "blockNumber is %v\n" [VUint 0]]
       [request_for Mock.endpoint "eth_blockNumber" []]) /\
  fst (MemDB.GetTransactions MockNodes.node_genesis Mock.endpoint Mock.X
         (Mock.subscribed Mock.X)) = Done ([MockNodes.tx0], None) /\
  fst (GlobalMap.GetTransactions MockNodes.node_genesis Mock.endpoint Mock.X
         (Mock.subscribed Mock.X)) = Done ([MockNodes.tx0], None).
Proof. repeat split; vm_compute; reflexivity. Qed.
